(** * prive: datasets and the Groundhog attack

    A shallow embedding of [prive/datasets/dataset.py] (TabularDataset,
    TabularRecord) and [prive/attacks/groundhog.py] (Groundhog), with the
    pandas and numpy calls they make modelled at the level the two files
    use them.

    Conventions.
    - A Python exception is a value of [exception]; a call that may raise
      returns a [result].
    - A method that assigns to [self] returns the receiver as it is after
      the call, next to the outcome: [(self', Ok v)] or [(self', Raise e)].
      The receiver of a raising call is returned as the call left it.
    - numpy's global random generator and pandas' [random_state] are a
      stream of raw draws, [RandomState]; a call that draws reads it from
      position 0.
    - Python floats are modelled by rationals ([Q]). *)

From Stdlib Require Import ZArith QArith Qround Lia.
From stdpp Require Import base list strings gmap.

Open Scope Z_scope.

(** ** Exceptions and results *)

Inductive exception :=
  | AssertionError (msg : string)
  | AttributeError (attr : string)
  | IndexError
  | KeyError
  | ValueError.

Inductive result (A : Type) :=
  | Ok (a : A)
  | Raise (e : exception).
Arguments Ok {A} a.
Arguments Raise {A} e.

#[global] Instance result_ret : MRet result := λ A, Ok.
#[global] Instance result_bind : MBind result := λ A B f m,
  match m with Ok a => f a | Raise e => Raise e end.
#[global] Instance result_fmap : FMap result := λ A B f m,
  match m with Ok a => Ok (f a) | Raise e => Raise e end.

(** [assert cond, msg] *)
Definition assert (cond : bool) (msg : string) : result unit :=
  if cond then Ok tt else Raise (AssertionError msg).

(** The random generator: the k-th raw draw. *)
Definition RandomState := nat → nat.

(** ** pandas *)

Module pd.

(** An index label: read_csv gives 0, 1, 2, ...; [set_id] may install an
    int or a str. *)
Inductive label := LInt (z : Z) | LStr (s : string).

(** A cell of a row. *)
Inductive cell := CInt (z : Z) | CStr (s : string).

#[global] Instance label_eq_dec : EqDecision label.
Proof. solve_decision. Defined.
#[global] Instance cell_eq_dec : EqDecision cell.
Proof. solve_decision. Defined.

(** A DataFrame, row by row: the row's index label and its values, in
    storage order.  Labels need not be distinct.  The columns are those
    of the dataset's description and are not repeated here. *)
Abbreviation DataFrame := (list (label * list cell)).

(** [df.index] *)
Definition index (df : DataFrame) : list label := df.*1.

(** [df.shape[0]] *)
Definition shape0 (df : DataFrame) : nat := length df.

(** A Python sequence position: negative positions count from the end. *)
Definition position (len : nat) (i : Z) : option nat :=
  if bool_decide (0 ≤ i < Z.of_nat len) then Some (Z.to_nat i)
  else if bool_decide (- Z.of_nat len ≤ i < 0) then Some (Z.to_nat (Z.of_nat len + i))
  else None.

(** [df.iloc[ids]] with a list of positions: the rows at these positions,
    in the order asked, with the labels they have in [df]; a position out
    of bounds raises IndexError. *)
Fixpoint iloc (df : DataFrame) (ids : list Z) : result DataFrame :=
  match ids with
  | [] => Ok []
  | i :: ids' =>
      match position (length df) i ≫= (df !!.) with
      | Some row => cons row <$> iloc df ids'
      | None => Raise IndexError
      end
  end.

(** [df.drop(labels)]: every row whose label is listed goes; a listed
    label that no row carries raises KeyError. *)
Definition drop (df : DataFrame) (labels : list label) : result DataFrame :=
  if bool_decide (Forall (λ l, l ∈ index df) labels)
  then Ok (filter (λ row, row.1 ∉ labels) df)
  else Raise KeyError.

(** [pd.concat([a, b])]: the rows of [a], then those of [b], each with
    the label it had. *)
Definition concat (a b : DataFrame) : DataFrame := a ++ b.

(** [n] distinct elements of [pool], drawn one after the other. *)
Fixpoint draw_distinct {A} (g : RandomState) (k : nat) (pool : list A) (n : nat) : list A :=
  match n with
  | O => []
  | S n' =>
      let j := (g k mod length pool)%nat in
      match pool !! j with
      | Some x => x :: draw_distinct g (S k) (delete j pool) n'
      | None => []
      end
  end.

(** [df.sample(n, random_state=g)]: [n] rows without replacement;
    ValueError when [n] is negative or exceeds the number of rows. *)
Definition sample (df : DataFrame) (n : Z) (g : RandomState) : result DataFrame :=
  if bool_decide (0 ≤ n ≤ Z.of_nat (length df))
  then Ok (draw_distinct g 0 df (Z.to_nat n))
  else Raise ValueError.

(** [df.index = pd.Index([identifier])]: ValueError unless [df] has
    exactly one row. *)
Definition set_index1 (df : DataFrame) (identifier : label) : result DataFrame :=
  match df with
  | [(_, values)] => Ok [(identifier, values)]
  | _ => Raise ValueError
  end.

(** The [_merge] column of [pd.merge(..., indicator=True)]. *)
Inductive indicator := left_only | right_only | both.

#[global] Instance indicator_eq_dec : EqDecision indicator.
Proof. solve_decision. Defined.

(** The order of the join keys in an outer merge called without [sort].
    pandas documents "outer: use union of keys from both frames ...; sort
    keys lexicographically" and follows it from release 2.2 on; earlier
    releases group the rows by key, the keys in the order they are first
    met (the left frame's, then the right frame's). *)
Inductive key_order := lexicographic | first_seen.

Definition cell_compare (a b : cell) : comparison :=
  match a, b with
  | CInt x, CInt y => x ?= y
  | CStr s, CStr t => String.compare s t
  | CInt _, CStr _ => Lt
  | CStr _, CInt _ => Gt
  end.

Fixpoint key_compare (r s : list cell) : comparison :=
  match r, s with
  | [], [] => Eq
  | [], _ :: _ => Lt
  | _ :: _, [] => Gt
  | a :: r', b :: s' =>
      match cell_compare a b with
      | Eq => key_compare r' s'
      | c => c
      end
  end.

Fixpoint insert_key (k : list cell) (ks : list (list cell)) : list (list cell) :=
  match ks with
  | [] => [k]
  | k' :: ks' =>
      match key_compare k k' with
      | Gt => k' :: insert_key k ks'
      | _ => k :: ks
      end
  end.

Definition sort_keys (ks : list (list cell)) : list (list cell) :=
  foldr insert_key [] ks.

(** The distinct elements of [ks], each at its first occurrence. *)
Fixpoint distinct (seen ks : list (list cell)) : list (list cell) :=
  match ks with
  | [] => []
  | k :: ks' =>
      if decide (k ∈ seen) then distinct seen ks'
      else k :: distinct (k :: seen) ks'
  end.

Definition join_keys (order : key_order) (left right : DataFrame) : list (list cell) :=
  let ks := distinct [] (left.*2 ++ right.*2) in
  match order with
  | first_seen => ks
  | lexicographic => sort_keys ks
  end.

(** [pd.merge(left, right, how='outer', indicator=True)] for two frames
    with the same columns, all of which are then join keys.  Key by key:
    the left rows without a right match ([left_only]), the right rows
    without a left match ([right_only]), or one row per matching pair
    ([both]).  The result carries a fresh index 0, 1, 2, ...: the labels
    of [left] and [right] are gone, and a row's label is its position in
    the list returned here. *)
Definition merge_outer (order : key_order) (left right : DataFrame)
  : list (list cell * indicator) :=
  k ← join_keys order left right;
  let nl := length (filter (λ row, row.2 = k) left) in
  let nr := length (filter (λ row, row.2 = k) right) in
  match nl, nr with
  | _, O => replicate nl (k, left_only)
  | O, _ => replicate nr (k, right_only)
  | _, _ => replicate (nl * nr) (k, both)
  end.

End pd.

(** ** numpy *)

Module np.

(** [np.random.choice(a, size=n).tolist()]: [n] independent draws from
    [a], that is, with replacement ([replace=True] is numpy's default);
    ValueError for a negative size, or when [a] is empty and [n > 0]. *)
Definition random_choice {A} (g : RandomState) (a : list A) (n : Z) : result (list A) :=
  if bool_decide (n < 0) then Raise ValueError
  else if bool_decide (n = 0) then Ok []
  else match a with
       | [] => Raise ValueError
       | x :: _ =>
           Ok ((λ k, default x (a !! (g k mod length a)%nat)) <$> seq 0 (Z.to_nat n))
       end.

(** [np.round(x, 0)]: to the nearest integer, a tie goes to the even
    one.  The value is returned as the integer it denotes. *)
Definition round (x : Q) : Z :=
  let f := Qfloor x in
  match (x - inject_Z f ?= 1 # 2)%Q with
  | Lt => f
  | Gt => f + 1
  | Eq => if Z.even f then f else f + 1
  end.

End np.

(** ** prive.datasets *)

(** Modelled from the spec: [DataDescription]
    (prive/datasets/data_description.py) is "an ordered list of column
    specifications (type, representation)" that "supports equality
    comparison between two instances"; [==] on descriptions is equality of
    these lists. *)
Record column := { type : string; representation : string }.

#[global] Instance column_eq_dec : EqDecision column.
Proof. solve_decision. Defined.

Abbreviation DataDescription := (list column).

(** [TabularDataset.__init__(self, data, description)] *)
Record TabularDataset := {
  data : pd.DataFrame;
  description : DataDescription;
}.

#[global] Instance TabularDataset_eq_dec : EqDecision TabularDataset.
Proof. solve_decision. Defined.

(** [self.data = new_data] *)
Definition set_data (self : TabularDataset) (new_data : pd.DataFrame) : TabularDataset :=
  {| data := new_data; description := description self |}.

(** [TabularDataset.__len__] *)
Definition __len__ (self : TabularDataset) : nat := pd.shape0 (data self).

(** [int(x)] on a float: truncation towards zero. *)
Definition int (x : Q) : Z := Z.quot (Qnum x) (Z.pos (Qden x)).

(** [TabularDataset.sample(self, n_samples=1, frac=None, random_state=None)].
    [if frac:] is Python truthiness: None and 0.0 both take the else
    branch. *)
Definition sample (self : TabularDataset) (n_samples : Z) (frac : option Q)
    (random_state : RandomState) : result TabularDataset :=
  let n_samples :=
    match frac with
    | Some f => if Qeq_bool f 0 then n_samples
                else int (f * inject_Z (Z.of_nat (__len__ self)))
    | None => n_samples
    end in
  new_data ← pd.sample (data self) n_samples random_state;
  Ok {| data := new_data; description := description self |}.

(** [TabularDataset.get_records(self, record_ids)] *)
Definition get_records (self : TabularDataset) (record_ids : list Z) : result TabularDataset :=
  rows ← pd.iloc (data self) record_ids;
  Ok {| data := rows; description := description self |}.

(** [TabularDataset.drop_records(self, record_ids=[], n=1, in_place=False)].
    The value returned is [None] when [in_place]. *)
Definition drop_records (self : TabularDataset) (record_ids : list pd.label) (n : Z)
    (in_place : bool) (g : RandomState) : TabularDataset * result (option TabularDataset) :=
  let chosen :=
    if bool_decide (length record_ids = 0%nat)
    then np.random_choice g (pd.index (data self)) n
    else Ok record_ids in
  match chosen ≫= pd.drop (data self) with
  | Raise e => (self, Raise e)
  | Ok new_data =>
      if in_place then (set_data self new_data, Ok None)
      else (self, Ok (Some {| data := new_data; description := description self |}))
  end.

(** [TabularDataset.__add__(self, other)] *)
Definition __add__ (self other : TabularDataset) : result TabularDataset :=
  assert (bool_decide (description self = description other))
    "Both datasets must have the same data description";;
  Ok {| data := pd.concat (data self) (data other); description := description self |}.

(** [TabularDataset.add_records(self, records, in_place=False)] *)
Definition add_records (self records : TabularDataset) (in_place : bool)
    : TabularDataset * result (option TabularDataset) :=
  if in_place then
    match assert (bool_decide (description self = description records))
            "Both datasets must have the same data description" with
    | Raise e => (self, Raise e)
    | Ok _ => (set_data self (pd.concat (data self) (data records)), Ok None)
    end
  else (self, Some <$> __add__ self records).

(** [TabularDataset.replace(self, records_in, records_out=[], in_place=False)] *)
Definition replace (self records_in : TabularDataset) (records_out : list pd.label)
    (in_place : bool) (g : RandomState) : TabularDataset * result (option TabularDataset) :=
  let checked :=
    if bool_decide (0 < length records_out)%nat
    then assert (bool_decide (length records_out = __len__ records_in))
           "Number of records out must equal number of records in"
    else Ok tt in
  match checked with
  | Raise e => (self, Raise e)
  | Ok _ =>
      let n := Z.of_nat (__len__ records_in) in
      if in_place then
        match drop_records self records_out n in_place g with
        | (self1, Raise e) => (self1, Raise e)
        | (self1, Ok _) =>
            match add_records self1 records_in in_place with
            | (self2, Raise e) => (self2, Raise e)
            | (self2, Ok _) => (self2, Ok None)
            end
        end
      else
        match drop_records self records_out n false g with
        | (self1, Raise e) => (self1, Raise e)
        | (self1, Ok None) => (self1, Raise (AttributeError "add_records"))
        | (self1, Ok (Some reduced_dataset)) =>
            (self1, (add_records reduced_dataset records_in false).2)
        end
  end.

(** [TabularDataset.empty(self)] *)
Definition empty (self : TabularDataset) : result TabularDataset :=
  get_records self [].

(** [class TabularRecord(TabularDataset)]: a dataset with an [id]. *)
Record TabularRecord := {
  as_dataset :> TabularDataset;
  id : pd.label;
}.

(** [TabularRecord.from_dataset(cls, tabular_row)] *)
Definition from_dataset (tabular_row : TabularDataset) : result TabularRecord :=
  if bool_decide (pd.shape0 (data tabular_row) ≠ 1%nat)
  then Raise (AssertionError "Parent TabularDataset object must contain only 1 record")
  else match pd.index (data tabular_row) with
       | first :: _ => Ok {| as_dataset := tabular_row; id := first |}
       | [] => Raise IndexError
       end.

(** [TabularRecord.get_id(self, tabular_dataset)].  [order] is the key
    order of the pandas release in use, see [pd.key_order].  The value
    returned is a label of the merged frame. *)
Definition get_id (order : pd.key_order) (self : TabularRecord)
    (tabular_dataset : TabularDataset) : result Z :=
  let merged := pd.merge_outer order (data tabular_dataset) (data self) in
  let matched := filter (λ row, row.2.2 = pd.both) (imap pair merged) in
  if bool_decide (length matched ≠ 1%nat)
  then Raise (AssertionError "Error, more than one copy of this record is present on the dataset")
  else match matched with
       | (pos, _) :: _ => Ok (Z.of_nat pos)
       | [] => Raise IndexError
       end.

(** [TabularRecord.set_id(self, identifier)]: [self.id] is assigned first,
    the index of [self.data] after it. *)
Definition set_id (self : TabularRecord) (identifier : pd.label) : TabularRecord * result unit :=
  let self1 := {| as_dataset := as_dataset self; id := identifier |} in
  match pd.set_index1 (data self1) identifier with
  | Raise e => (self1, Raise e)
  | Ok reindexed =>
      ({| as_dataset := set_data self1 reindexed; id := identifier |}, Ok tt)
  end.

(** ** prive.attacks *)

(** The capabilities the attack is handed.  Their code is outside the two
    files; each is an interface over the collaborator's own state. *)

(** [SetClassifier]: [fit] trains the classifier object in place (the
    object after the call is returned with the outcome); [predict] gives a
    score per dataset, [predict_proba] a row of class probabilities per
    feature vector. *)
Class SetClassifier (C : Type) := {
  class_name : C → string;
  fit : C → list TabularDataset → list Z → C * result unit;
  predict : C → list TabularDataset → result (list Q);
  predict_proba : C → list (list Q) → result (list (list Q));
}.

(** [ThreatModel.generate_training_samples(num_samples)] *)
Class ThreatModel (T : Type) := {
  generate_training_samples : T → Z → result (list TabularDataset * list Z);
}.

(** A feature extractor, [extract(dataset)]. *)
Class FeatureSet (F : Type) := {
  extract : F → TabularDataset → result (list Q);
}.

Module Groundhog.

(** What an attribute of a Groundhog object can hold. *)
Inductive value (C F : Type) :=
  | VNone
  | VBool (b : bool)
  | VStr (s : string)
  | VDescription (d : DataDescription)
  | VClassifier (c : C)
  | VFeatureSet (f : F).
Arguments VNone {C F}.
Arguments VBool {C F} b.
Arguments VStr {C F} s.
Arguments VDescription {C F} d.
Arguments VClassifier {C F} c.
Arguments VFeatureSet {C F} f.

(** Modelled from the spec: the base class [Attack]
    (prive/attacks/base_classes.py) is the abstract train / attack /
    attack_score interface, and the state of an attack is "each Attack
    instance's own trained flag and attached classifier"; the class gives
    its objects no data attribute.  A Groundhog object is then its attribute
    dictionary: [self.x = v] inserts, [self.x] looks up, and a name that is
    not in the dictionary raises AttributeError. *)
Abbreviation instance C F := (gmap string (value C F)).

Definition getattr {C F} (self : instance C F) (name : string) : result (value C F) :=
  match self !! name with
  | Some v => Ok v
  | None => Raise (AttributeError name)
  end.

(** Python truthiness. *)
Definition truthy {C F} (v : value C F) : bool :=
  match v with
  | VNone => false
  | VBool b => b
  | VStr s => negb (bool_decide (s = ""))
  | _ => true
  end.

(** [np.stack(rows)]: at least one row, all of one length. *)
Definition stack (rows : list (list Q)) : result (list (list Q)) :=
  match rows with
  | [] => Raise ValueError
  | r :: _ =>
      if forallb (λ r', bool_decide (length r' = length r)) rows
      then Ok rows else Raise ValueError
  end.

(** [p[s]] on a row of an array. *)
Definition getitem (p : list Q) (s : Z) : result Q :=
  match pd.position (length p) s ≫= (p !!.) with
  | Some x => Ok x
  | None => Raise IndexError
  end.

(** [[f(x) for x in xs]] with a body that may raise. *)
Fixpoint comprehension {A B} (f : A → result B) (xs : list A) : result (list B) :=
  match xs with
  | [] => Ok []
  | x :: xs' => y ← f x; ys ← comprehension f xs'; Ok (y :: ys)
  end.

Section methods.
Context {C F T : Type} `{!SetClassifier C, !FeatureSet F, !ThreatModel T}.

(** [Groundhog.__init__(self, classifier, data_description)] *)
Definition __init__ (classifier : C) (data_description : DataDescription) : instance C F :=
  <["__name__" := VStr (class_name classifier +:+ "Groundhog")]>
    (<["trained" := VBool false]>
       (<["data_description" := VDescription data_description]>
          (<["classifier" := VClassifier classifier]> ∅))).

(** [Groundhog.train(self, threat_model=None, num_samples=100,
    synthetic_datasets=None, labels=None)] *)
Definition train (self : instance C F) (threat_model : option T) (num_samples : Z)
    (synthetic_datasets : option (list TabularDataset)) (labels : option (list Z))
    : instance C F * result unit :=
  let samples :=
    match synthetic_datasets, labels with
    | Some sd, Some ls => Ok (sd, ls)
    | _, _ =>
        match threat_model with
        | Some tm => generate_training_samples tm num_samples
        | None => Raise (AttributeError "generate_training_samples")
        end
    end in
  match samples with
  | Raise e => (self, Raise e)
  | Ok (sd, ls) =>
      match getattr self "classifier" with
      | Raise e => (self, Raise e)
      | Ok (VClassifier c) =>
          let '(c', fitted) := fit c sd ls in
          let self1 := <["classifier" := VClassifier c']> self in
          match fitted with
          | Raise e => (self1, Raise e)
          | Ok _ => (<["trained" := VBool true]> self1, Ok tt)
          end
      | Ok _ => (self, Raise (AttributeError "fit"))
      end
  end.

(** [Groundhog.attack(self, datasets)] *)
Definition attack (self : instance C F) (datasets : list TabularDataset) : result (list Z) :=
  trained ← getattr self "trained";
  assert (truthy trained) "Attack must first be trained.";;
  clf ← getattr self "classifier";
  match clf with
  | VClassifier c => scores ← predict c datasets; Ok (np.round <$> (scores : list Q))
  | _ => Raise (AttributeError "predict")
  end.

(** [Groundhog.attack_score(self, synT, secret)].  [synT] is a list of
    Datasets: none is a [pd.DataFrame], and a Dataset has no [flatten]. *)
Definition attack_score (self : instance C F) (synT : list TabularDataset)
    (secret : list Z) : result (list Q) :=
  trained ← getattr self "trained";
  assert (truthy trained) "Attack must first be trained.";;
  feature_set ← getattr self "FeatureSet";
  features ←
    match feature_set with
    | VNone =>
        match synT with
        | [] => Raise IndexError
        | _ :: _ => Raise (AttributeError "flatten")
        end
    | VFeatureSet f => comprehension (extract f) synT ≫= stack
    | _ => Raise (AttributeError "extract")
    end;
  clf ← getattr self "Classifier";
  probs ←
    match clf with
    | VClassifier c => predict_proba c features
    | _ => Raise (AttributeError "predict_proba")
    end;
  comprehension (λ ps, getitem ps.1 ps.2) (zip probs secret).


End methods.

End Groundhog.

(** ** prive.datasets, continued *)



(** [TabularDataset.__iter__(self)]: [iterrows()] gives the rows in storage
    order, each with its label; [to_frame().T] makes a one-row frame with
    that label, and [from_dataset] a record of it.  The elements of the
    lazy [map] are listed with their outcomes. *)
Definition __iter__ (self : TabularDataset) : list (result TabularRecord) :=
  (λ row, from_dataset {| data := [row]; description := description self |}) <$> data self.

Section subsets.

(** [prive.utils.data.index_split(max_index, split_size, num_splits)] is
    not among the sources; it is a parameter here, standing for one run of
    it: the lists of positions it returns, or the exception it raises. *)
Variable index_split : nat → Z → Z → result (list (list Z)).

(** [TabularDataset.create_subsets(self, n, sample_size)] *)
Definition create_subsets (self : TabularDataset) (n sample_size : Z)
    : result (list TabularDataset) :=
  assert (bool_decide (sample_size ≤ Z.of_nat (__len__ self)))
    "Cannot create subsets larger than original dataset";;
  splits ← index_split (pd.shape0 (data self)) sample_size n;
  Groundhog.comprehension (get_records self) splits.

End subsets.

(** How a call of the reading functions ends: with a value, with one of
    the exceptions above, or with a NameError. *)
Inductive outcome (A : Type) :=
  | returned (a : A)
  | raised (e : exception)
  | NameError (name : string).
Arguments returned {A} a.
Arguments raised {A} e.
Arguments NameError {A} name.

Section reading.

(** [prive.utils.data.get_dtype(type, representation)] and [pd.read_csv(fp,
    header=None, dtype=dtypes, index_col=None)] are parameters: the dtype
    (or exception) the first gives for a column, the frame (or exception)
    the second gives for a text and the dtypes of the columns. *)
Context {dtype : Type}.
Variable get_dtype : string → string → result dtype.
Variable read_csv : string → list dtype → result pd.DataFrame.

(** [_parse_csv(fp, schema)].  The loop over the date and datetime columns
    binds [c], and its body reads [i]; the [i] of the two comprehensions is
    local to them, and neither the function nor the module has another:
    the first pass through the body raises NameError. *)
Definition _parse_csv (fp : string) (schema : list column) : outcome TabularDataset :=
  match Groundhog.comprehension (λ col, get_dtype (type col) (representation col)) schema with
  | Raise e => raised e
  | Ok dtypes =>
      match read_csv fp dtypes with
      | Raise e => raised e
      | Ok frame =>
          match filter (λ col, representation col = "date" ∨ representation col = "datetime")
                  schema with
          | _ :: _ => NameError "i"
          | [] => returned {| data := frame; description := schema |}
          end
      end
  end.

(** [TabularDataset.read_from_string(cls, data, description)] *)
Definition read_from_string (text : string) (description : DataDescription)
    : outcome TabularDataset :=
  _parse_csv text description.

End reading.

(** ** The dataset-producing operations, as one dispatch

    The calls that return a dataset (the in-place variants return None and
    are not among them). *)

Inductive operation :=
  | call_sample (n_samples : Z) (frac : option Q) (random_state : RandomState)
  | call_get_records (record_ids : list Z)
  | call_drop_records (record_ids : list pd.label) (n : Z) (g : RandomState)
  | call_add_records (records : TabularDataset)
  | call_replace (records_in : TabularDataset) (records_out : list pd.label) (g : RandomState)
  | call_empty
  | call_add (other : TabularDataset).

(** The value [self.<operation>] returns, with [in_place=False] where the
    operation has the flag. *)
Definition returns (self : TabularDataset) (op : operation) : result (option TabularDataset) :=
  match op with
  | call_sample n_samples frac random_state => Some <$> sample self n_samples frac random_state
  | call_get_records record_ids => Some <$> get_records self record_ids
  | call_drop_records record_ids n g => (drop_records self record_ids n false g).2
  | call_add_records records => (add_records self records false).2
  | call_replace records_in records_out g => (replace self records_in records_out false g).2
  | call_empty => Some <$> empty self
  | call_add other => Some <$> __add__ self other
  end.

(** ** Attack objects over time *)

Section histories.
Context {C F T : Type} `{!SetClassifier C, !FeatureSet F, !ThreatModel T}.

(** The objects a program can hold: a fresh one, or one on which [train]
    was called (whatever the outcome). *)
Inductive reachable : Groundhog.instance C F → Prop :=
  | reachable_init classifier data_description :
      reachable (Groundhog.__init__ classifier data_description)
  | reachable_train self (threat_model : option T) num_samples synthetic_datasets labels :
      reachable self →
      reachable (Groundhog.train self threat_model num_samples synthetic_datasets labels).1.

(** The objects on which no [train] call has succeeded yet. *)
Inductive never_trained : Groundhog.instance C F → Prop :=
  | never_trained_init classifier data_description :
      never_trained (Groundhog.__init__ classifier data_description)
  | never_trained_failed self (threat_model : option T) num_samples synthetic_datasets labels
      self' e :
      never_trained self →
      Groundhog.train self threat_model num_samples synthetic_datasets labels = (self', Raise e) →
      never_trained self'.

(** The classifier keeps its contract on [datasets]: one score per
    dataset, each one rounding to 0 or to 1. *)
Definition scores_each (c : C) (datasets : list TabularDataset) (scores : list Q) : Prop :=
  predict c datasets = Ok scores ∧
  length scores = length datasets ∧
  Forall (λ s, (- (1 # 2) <= s)%Q ∧ (s < 3 # 2)%Q) scores.

End histories.

(** ** Data for the examples *)

Module example.

(** A one-column frame with the labels 0, 1, 2, ... that read_csv gives. *)
Definition frame (values : list Z) : pd.DataFrame :=
  imap (λ i v, (pd.LInt (Z.of_nat i), [pd.CInt v])) values.

Definition ages : DataDescription :=
  [{| type := "finite"; representation := "integer" |}].

Definition names : DataDescription :=
  [{| type := "finite"; representation := "string" |}].

Definition dataset (values : list Z) : TabularDataset :=
  {| data := frame values; description := ages |}.

(** The draws 0, 0, 0, ... and 0, 1, 2, ... *)
Definition zeros : RandomState := λ _, 0%nat.
Definition counting : RandomState := λ k, k.

(** A classifier that counts its [fit] calls (and refuses an empty
    training set), scores a dataset by whether it has rows, and gives the
    probabilities 3/10, 7/10. *)
Record counter := { fits : nat }.

#[global] Instance counter_classifier : SetClassifier counter := {|
  class_name := λ _, "Counter";
  fit := λ c datasets labels,
    match datasets with
    | [] => (c, Raise ValueError)
    | _ => ({| fits := S (fits c) |}, Ok tt)
    end;
  predict := λ _ datasets,
    Ok ((λ d, if bool_decide (__len__ d = 0%nat) then (1 # 10)%Q else (9 # 10)%Q) <$> datasets);
  predict_proba := λ _ features, Ok ((λ _, [(3 # 10)%Q; (7 # 10)%Q]) <$> features);
|}.

#[global] Instance no_threat_model : ThreatModel unit := {|
  generate_training_samples := λ _ _, Raise ValueError;
|}.

#[global] Instance row_count : FeatureSet unit := {|
  extract := λ _ d, Ok [inject_Z (Z.of_nat (__len__ d))];
|}.

(** [Groundhog(Counter(), ages)], then
    [train(synthetic_datasets=[dataset [1; 2]], labels=[1])]. *)
Definition fresh : Groundhog.instance counter unit :=
  Groundhog.__init__ {| fits := 0 |} ages.

Definition trained : Groundhog.instance counter unit :=
  (Groundhog.train fresh (None : option unit) 100 (Some [dataset [1; 2]]) (Some [1])).1.

End example.

(** * Properties *)

(** ** Helper lemmas *)

Lemma bind_Ok {A B} (m : result A) (f : A → result B) (b : B) :
  m ≫= f = Ok b → ∃ a, m = Ok a ∧ f a = Ok b.
Proof. destruct m as [a|e]; [eauto | discriminate]. Qed.

Lemma fmap_Ok {A B} (m : result A) (f : A → B) (b : B) :
  f <$> m = Ok b → ∃ a, m = Ok a ∧ b = f a.
Proof. destruct m as [a|e]; [intros [= <-]; eauto | discriminate]. Qed.

(** The rows a label list selects from a frame with distinct labels are as
    many as the labels. *)
Lemma length_filter_listed (df : pd.DataFrame) (S : list pd.label) :
  NoDup (pd.index df) → NoDup S → S ⊆ pd.index df →
  length (filter (λ row, row.1 ∈ S) df) = length S.
Proof.
  intros Hdf HS Hsub.
  rewrite <- (length_fmap fst).
  apply Permutation_length, NoDup_Permutation; [|done|].
  - unfold pd.index in Hdf. clear Hsub.
    induction df as [|row df IH]; [constructor|].
    rewrite fmap_cons in Hdf. apply NoDup_cons in Hdf as [Hrow Hdf].
    rewrite filter_cons. case_decide; [|by apply IH].
    rewrite fmap_cons. apply NoDup_cons. split; [|by apply IH].
    intros Hin. apply Hrow.
    apply list_elem_of_fmap in Hin as (row' & -> & Hin).
    apply list_elem_of_filter in Hin as [_ Hin].
    apply list_elem_of_fmap. eauto.
  - intros l. rewrite list_elem_of_fmap. split.
    + intros (row & -> & Hin). by apply list_elem_of_filter in Hin as [? _].
    + intros Hl. destruct (proj1 (list_elem_of_fmap _ _ _) (Hsub _ Hl)) as (row & -> & Hin).
      exists row. split; [done|]. by apply list_elem_of_filter.
Qed.

Lemma length_filter_unlisted (df : pd.DataFrame) (S : list pd.label) :
  (length (filter (λ row, row.1 ∉ S) df) + length (filter (λ row, row.1 ∈ S) df))%nat
  = length df.
Proof.
  pose proof (Permutation_length (filter_app_complement (λ row, row.1 ∈ S) df)) as Hlen.
  rewrite length_app in Hlen. lia.
Qed.

(** ** What the in-place calls leave behind *)

(** A [drop_records] call that raises has not touched the receiver. *)
Lemma drop_records_raise_keeps self record_ids n in_place g self' e :
  drop_records self record_ids n in_place g = (self', Raise e) → self' = self.
Proof.
  unfold drop_records. destruct (_ ≫= _); [|by intros [= <- _]].
  destruct in_place; discriminate.
Qed.

(** [add_records(in_place=True)] checks the descriptions before it assigns. *)
Lemma add_records_in_place_mismatch self records :
  description self ≠ description records →
  add_records self records true
  = (self, Raise (AssertionError "Both datasets must have the same data description")).
Proof.
  intros Hdesc. unfold add_records, assert. by rewrite bool_decide_eq_false_2.
Qed.

(** X14.  The length check of [replace] comes before anything else: a
    non-empty [records_out] whose length is not that of [records_in] raises
    AssertionError and leaves the receiver as it was, with or without
    [in_place], whatever the descriptions and the labels. *)
Lemma replace_length_mismatch self records_in records_out in_place g :
  records_out ≠ [] → length records_out ≠ __len__ records_in →
  replace self records_in records_out in_place g
  = (self, Raise (AssertionError "Number of records out must equal number of records in")).
Proof.
  intros Hne Hlen. unfold replace, assert.
  rewrite bool_decide_eq_true_2 by (destruct records_out; [done | cbn; lia]).
  by rewrite bool_decide_eq_false_2.
Qed.

(** Without [in_place], [replace] leaves the receiver as it was, whatever
    the outcome. *)
Lemma replace_copy_keeps_receiver self records_in records_out g :
  (replace self records_in records_out false g).1 = self.
Proof.
  unfold replace. destruct (if bool_decide _ then _ else _); [|done].
  unfold drop_records. destruct (_ ≫= _); done.
Qed.

(** ** Sampling *)

Lemma length_draw_distinct {A} (g : RandomState) (k : nat) (pool : list A) (n : nat) :
  (n ≤ length pool)%nat → length (pd.draw_distinct g k pool n) = n.
Proof.
  revert k pool. induction n as [|n IH]; intros k pool Hn; [done|]. cbn.
  assert (g k mod length pool < length pool)%nat as Hj by (apply Nat.mod_upper_bound; lia).
  destruct (lookup_lt_is_Some_2 _ _ Hj) as [x Hx]. rewrite Hx. cbn. f_equal.
  apply IH. rewrite length_delete by eauto. lia.
Qed.

(** With a fraction other than 0.0, [n_samples] plays no part: the sample
    has [int(frac * len(self))] rows whenever that is a possible size. *)
Lemma sample_frac_rows (D : TabularDataset) (n_samples : Z) (f : Q) (g : RandomState) :
  ¬ (f == 0)%Q →
  0 ≤ int (f * inject_Z (Z.of_nat (__len__ D))) ≤ Z.of_nat (__len__ D) →
  ∃ new, sample D n_samples (Some f) g = Ok new ∧
         Z.of_nat (__len__ new) = int (f * inject_Z (Z.of_nat (__len__ D))) ∧
         description new = description D.
Proof.
  intros Hf Hsize. unfold sample.
  destruct (Qeq_bool f 0) eqn:Hz; [by apply Qeq_bool_iff in Hz|].
  unfold pd.sample. rewrite bool_decide_eq_true_2 by done. cbn.
  eexists. split; [reflexivity|]. split; [|done].
  unfold __len__, pd.shape0 in *. cbn. rewrite length_draw_distinct; lia.
Qed.

(** A sample larger than the dataset is refused. *)
Lemma sample_beyond_size (D : TabularDataset) (n_samples : Z) (g : RandomState) :
  Z.of_nat (__len__ D) < n_samples → sample D n_samples None g = Raise ValueError.
Proof.
  intros Hn. unfold sample, pd.sample.
  rewrite bool_decide_eq_false_2; [done|]. unfold __len__, pd.shape0 in Hn. lia.
Qed.

(** ** TabularDataset *)

(** C6.  For datasets with equal descriptions, [A + B] is a dataset with
    [len(A) + len(B)] rows: the rows of [A], then the rows of [B], each
    kept as often as it occurs; so every row value of [A] and of [B] is in
    it.  For unequal descriptions [A + B] raises AssertionError. *)
Theorem add_concatenates (A B : TabularDataset) :
  (description A = description B →
   ∃ AB, __add__ A B = Ok AB ∧
         __len__ AB = (__len__ A + __len__ B)%nat ∧
         data AB = data A ++ data B ∧
         (∀ values, values ∈ (data A).*2 ∨ values ∈ (data B).*2 → values ∈ (data AB).*2)) ∧
  (description A ≠ description B →
   ∃ msg, __add__ A B = Raise (AssertionError msg)).
Proof.
  unfold __add__, assert. split; intros Hdesc.
  - rewrite bool_decide_eq_true_2 by done. eexists. split; [reflexivity|]. cbn.
    unfold __len__, pd.shape0, pd.concat. split; [apply length_app|]. split; [done|].
    intros values. rewrite fmap_app, elem_of_app. tauto.
  - rewrite bool_decide_eq_false_2 by done. by eexists.
Qed.

Lemma add_concatenates_witness :
  (∃ AB, __add__ (example.dataset [1; 2]) (example.dataset [2]) = Ok AB ∧
         __len__ AB = 3%nat ∧
         data AB = data (example.dataset [1; 2]) ++ data (example.dataset [2]) ∧
         (∀ values, values ∈ (data (example.dataset [1; 2])).*2 ∨
                    values ∈ (data (example.dataset [2])).*2 → values ∈ (data AB).*2)) ∧
  (∃ msg, __add__ (example.dataset [1; 2])
            {| data := example.frame [2]; description := example.names |}
          = Raise (AssertionError msg)).
Proof.
  split.
  - apply (proj1 (add_concatenates (example.dataset [1; 2]) (example.dataset [2]))).
    reflexivity.
  - apply (proj2 (add_concatenates (example.dataset [1; 2])
                    {| data := example.frame [2]; description := example.names |})).
    discriminate.
Defined.




(** C5 at the draws 0, 0: with no ids given, [drop_records] asks numpy for
    [n = 2] labels and gets the label 0 twice, since [np.random.choice]
    draws with replacement; one row goes, not two, with or without
    [in_place]. *)
Theorem drop_records_random_repeats :
  let D := example.dataset [5; 3] in
  let rest := {| data := [(pd.LInt 1, [pd.CInt 3])]; description := example.ages |} in
  np.random_choice example.zeros (pd.index (data D)) 2 = Ok [pd.LInt 0; pd.LInt 0] ∧
  drop_records D [] 2 false example.zeros = (D, Ok (Some rest)) ∧
  drop_records D [] 2 true example.zeros = (rest, Ok None) ∧
  __len__ rest = 1%nat ∧
  (__len__ D - 2)%nat = 0%nat.
Proof. repeat split; reflexivity. Qed.

(** C2 at a description mismatch: [replace(records_in, [0], in_place=True)]
    passes the length check, drops row 0 from [D], and only then reaches
    the description check of [add_records], which raises; [D] is left
    without row 0. *)
Theorem replace_in_place_drops_before_check :
  let D := example.dataset [5; 3; 4] in
  let records_in := {| data := example.frame [9]; description := example.names |} in
  description records_in ≠ description D ∧
  replace D records_in [pd.LInt 0] true example.zeros
  = ({| data := [(pd.LInt 1, [pd.CInt 3]); (pd.LInt 2, [pd.CInt 4])];
        description := example.ages |},
     Raise (AssertionError "Both datasets must have the same data description")) ∧
  (replace D records_in [pd.LInt 0] true example.zeros).1 ≠ D.
Proof. repeat split; try reflexivity; discriminate. Qed.

(** C8 at [frac = 0.0]: a fraction is given, yet [if frac:] takes it for
    absent and [n_samples] decides: the call returns what the call without
    a fraction returns, here one row where [int(0.0 * 3)] is 0. *)
Theorem sample_zero_frac_uses_n :
  (∀ D n_samples random_state,
     sample D n_samples (Some 0%Q) random_state = sample D n_samples None random_state) ∧
  sample (example.dataset [5; 3; 4]) 1 (Some 0%Q) example.zeros
  = Ok {| data := [(pd.LInt 0, [pd.CInt 5])]; description := example.ages |} ∧
  int (0 * inject_Z (Z.of_nat (__len__ (example.dataset [5; 3; 4])))) = 0.
Proof. repeat split; reflexivity. Qed.

(** C3 at the rows 1, 2, 1 and position 1: the row's values occur once,
    and [get_id] finds its single match, but the merge puts the two rows
    with value 1 first, under either key order; the identifier returned is
    the match's place in the merged frame, 2, not 1. *)
Theorem get_id_counts_merged_rows (order : pd.key_order) :
  let D := example.dataset [1; 2; 1] in
  get_records D [1]
  = Ok {| data := [(pd.LInt 1, [pd.CInt 2])]; description := example.ages |} ∧
  length (filter (λ row, row.2 = [pd.CInt 2]) (data D)) = 1%nat ∧
  pd.merge_outer order (data D) [(pd.LInt 1, [pd.CInt 2])]
  = [([pd.CInt 1], pd.left_only); ([pd.CInt 1], pd.left_only); ([pd.CInt 2], pd.both)] ∧
  (row ← get_records D [1]; record ← from_dataset row; get_id order record D) = Ok 2.
Proof. destruct order; repeat split; reflexivity. Qed.

(** Where the round trip does come out: rows that are pairwise distinct
    and in increasing order keep their places under either key order. *)
Example get_id_sorted_rows (order : pd.key_order) :
  (row ← get_records (example.dataset [3; 4; 5]) [1];
   record ← from_dataset row;
   get_id order record (example.dataset [3; 4; 5])) = Ok 1.
Proof. by destruct order. Qed.

(** Rows that are pairwise distinct but not in order keep their places
    only when the keys are taken as first met. *)
Example get_id_unsorted_rows :
  let round_trip order :=
    row ← get_records (example.dataset [5; 3; 4]) [0];
    record ← from_dataset row;
    get_id order record (example.dataset [5; 3; 4]) in
  round_trip pd.first_seen = Ok 0 ∧ round_trip pd.lexicographic = Ok 2.
Proof. by split. Qed.

(** Two matches are refused. *)
Example get_id_two_copies (order : pd.key_order) :
  ∃ msg,
    (row ← get_records (example.dataset [1; 2; 1]) [0];
     record ← from_dataset row;
     get_id order record (example.dataset [1; 2; 1])) = Raise (AssertionError msg).
Proof. destruct order; by eexists. Qed.

(** C9.  Whatever a dataset-producing call ([sample], [get_records],
    [drop_records], [add_records] and [replace] without [in_place],
    [empty], [+]) returns is a dataset with the receiver's description. *)
Theorem operations_keep_description (self : TabularDataset) (op : operation)
    (v : option TabularDataset) :
  returns self op = Ok v →
  ∃ new, v = Some new ∧ description new = description self.
Proof.
  destruct op; cbn.
  - intros (new & Hnew & ->)%fmap_Ok. exists new. split; [done|].
    unfold sample in Hnew. apply bind_Ok in Hnew as (rows & _ & [= <-]). done.
  - intros (new & Hnew & ->)%fmap_Ok. exists new. split; [done|].
    unfold get_records in Hnew. apply bind_Ok in Hnew as (rows & _ & [= <-]). done.
  - unfold drop_records. destruct (_ ≫= _); cbn; [|discriminate].
    intros [= <-]. eauto.
  - intros (new & Hnew & ->)%fmap_Ok. exists new. split; [done|].
    unfold __add__ in Hnew. apply bind_Ok in Hnew as (? & _ & [= <-]). done.
  - unfold replace. destruct (if bool_decide _ then _ else _); [|discriminate].
    unfold drop_records. destruct (_ ≫= _); cbn; [|discriminate].
    intros (new & Hnew & ->)%fmap_Ok. exists new. split; [done|].
    unfold __add__ in Hnew. apply bind_Ok in Hnew as (? & _ & [= <-]). done.
  - intros [= <-]. eauto.
  - intros (new & Hnew & ->)%fmap_Ok. exists new. split; [done|].
    unfold __add__ in Hnew. apply bind_Ok in Hnew as (? & _ & [= <-]). done.
Qed.

Lemma operations_keep_description_witness :
  ∃ new,
    Some {| data := [(pd.LInt 1, [pd.CInt 3]); (pd.LInt 0, [pd.CInt 9])];
            description := example.ages |} = Some new ∧
    description new = description (example.dataset [5; 3]).
Proof.
  apply (operations_keep_description (example.dataset [5; 3])
           (call_replace (example.dataset [9]) [] example.zeros)).
  reflexivity.
Defined.

(** ** TabularRecord *)

(** C10.  On a record (one row), [set_id(x)] returns None and leaves the
    record with [id = x] and with [x] as the index label of its row, the
    values and the description as they were; [from_dataset] on the record
    then gives the identifier [x]. *)
Theorem set_id_relabels (r : TabularRecord) (x : pd.label) :
  __len__ r = 1%nat →
  ∃ r', set_id r x = (r', Ok tt) ∧
        id r' = x ∧
        pd.index (data r') = [x] ∧
        (data r').*2 = (data r).*2 ∧
        description r' = description r ∧
        ∃ again, from_dataset r' = Ok again ∧ id again = x.
Proof.
  destruct r as [[rows desc] old]. unfold __len__, pd.shape0. cbn. intros Hlen.
  destruct rows as [|[l values] [|? ?]]; try discriminate.
  eexists. split; [reflexivity|]. cbn. repeat split.
  eexists. split; reflexivity.
Qed.

Lemma set_id_relabels_witness :
  ∃ r', set_id {| as_dataset := example.dataset [7]; id := pd.LInt 0 |} (pd.LStr "target")
        = (r', Ok tt) ∧
        id r' = pd.LStr "target" ∧
        pd.index (data r') = [pd.LStr "target"] ∧
        (data r').*2 = (data (example.dataset [7])).*2 ∧
        description r' = description (example.dataset [7]) ∧
        ∃ again, from_dataset r' = Ok again ∧ id again = pd.LStr "target".
Proof.
  apply (set_id_relabels {| as_dataset := example.dataset [7]; id := pd.LInt 0 |}
           (pd.LStr "target")).
  reflexivity.
Defined.

(** ** numpy rounding *)

Lemma round_0_or_1 (x : Q) :
  (- (1 # 2) <= x)%Q → (x < 3 # 2)%Q → np.round x = 0 ∨ np.round x = 1.
Proof.
  destruct x as [n d]. unfold np.round, Qle, Qlt, Qcompare, Qminus, Qplus, Qopp, inject_Z, Qfloor.
  cbn [Qnum Qden]. intros Hlo Hhi.
  pose proof (Z.div_mod n (Z.pos d) ltac:(lia)) as Hdiv.
  pose proof (Z.mod_pos_bound n (Z.pos d) ltac:(lia)) as Hmod.
  set (f := n / Z.pos d) in *. set (r := n mod Z.pos d) in *.
  assert (f = -1 ∨ f = 0 ∨ f = 1) as Hf by nia.
  destruct (Z.compare_spec ((n * 1 + - f * Z.pos d) * 2) (1 * Z.pos (d * 1))) as [Heq|Hlt|Hgt];
    destruct Hf as [-> | [-> | ->]]; cbn [Z.even]; lia.
Qed.

(** ** Groundhog *)

Section groundhog.
Context {C F T : Type} `{!SetClassifier C, !FeatureSet F, !ThreatModel T}.
Implicit Types self : Groundhog.instance C F.

(** What a [train] call does to the object, outcome by outcome. *)
Lemma train_outcome self (threat_model : option T) num_samples synthetic_datasets labels
    self' outcome :
  Groundhog.train self threat_model num_samples synthetic_datasets labels = (self', outcome) →
  (∃ e, outcome = Raise e ∧ self' = self) ∨
  (∃ e c, outcome = Raise e ∧ self' = <["classifier" := Groundhog.VClassifier c]> self) ∨
  (∃ c, outcome = Ok tt ∧
        self' = <["trained" := Groundhog.VBool true]>
                  (<["classifier" := Groundhog.VClassifier c]> self)).
Proof.
  unfold Groundhog.train, Groundhog.getattr.
  destruct (match synthetic_datasets with Some _ => _ | None => _ end) as [[sd ls]|e];
    [|intros [= <- <-]; eauto].
  destruct (self !! "classifier") as [[| | | |c|]|]; try (intros [= <- <-]; eauto).
  destruct (fit c sd ls) as [c' [[]|e]]; intros [= <- <-]; eauto 10.
Qed.

Lemma never_trained_flag self :
  never_trained (T:=T) self → self !! "trained" = Some (Groundhog.VBool false).
Proof.
  induction 1 as [c d|self tm k sds ls self' e _ IH Htrain]; [done|].
  apply train_outcome in Htrain as [(? & _ & ->)|[(? & c & _ & ->)|(? & [=] & _)]]; [done|].
  by rewrite lookup_insert_ne.
Qed.

Lemma reachable_attributes self :
  reachable (T:=T) self → self !! "FeatureSet" = None ∧ self !! "Classifier" = None.
Proof.
  induction 1 as [c d|self tm k sds ls _ [IH1 IH2]]; [done|].
  destruct (Groundhog.train self tm k sds ls) as [self' outcome] eqn:Htrain. cbn.
  apply train_outcome in Htrain as [(? & _ & ->)|[(? & c & _ & ->)|(c & _ & ->)]];
    by rewrite ?lookup_insert_ne.
Qed.

(** C7.  On an object on which no [train] call has succeeded, [attack]
    raises the AssertionError of its first line.  A [train] call that
    returns leaves [trained] True and a classifier in place; [attack]
    then returns the classifier's scores rounded, one guess per dataset
    in the order given, each 0 or 1, as long as the classifier gives one
    score per dataset and scores that round to 0 or 1. *)
Theorem attack_after_train :
  (∀ self datasets,
     never_trained (T:=T) self →
     Groundhog.attack self datasets = Raise (AssertionError "Attack must first be trained.")) ∧
  (∀ self (threat_model : option T) num_samples synthetic_datasets labels self',
     Groundhog.train self threat_model num_samples synthetic_datasets labels = (self', Ok tt) →
     self' !! "trained" = Some (Groundhog.VBool true) ∧
     ∃ c, self' !! "classifier" = Some (Groundhog.VClassifier c)) ∧
  (∀ self (threat_model : option T) num_samples synthetic_datasets labels self' c
     datasets scores,
     Groundhog.train self threat_model num_samples synthetic_datasets labels = (self', Ok tt) →
     self' !! "classifier" = Some (Groundhog.VClassifier c) →
     scores_each c datasets scores →
     ∃ guesses, Groundhog.attack self' datasets = Ok guesses ∧
                length guesses = length datasets ∧
                guesses = np.round <$> scores ∧
                Forall (λ guess, guess = 0 ∨ guess = 1) guesses).
Proof.
  split; [|split].
  - intros self datasets Hflag%never_trained_flag.
    unfold Groundhog.attack, Groundhog.getattr. by rewrite Hflag.
  - intros self tm k sds ls self' Htrain.
    apply train_outcome in Htrain as [(? & [=] & _)|[(? & ? & [=] & _)|(c & _ & ->)]].
    split; [apply lookup_insert_eq|].
    exists c. rewrite lookup_insert_ne by done. apply lookup_insert_eq.
  - intros self tm k sds ls self' c datasets scores Htrain Hclf (Hpredict & Hlen & Hrange).
    apply train_outcome in Htrain as [(? & [=] & _)|[(? & ? & [=] & _)|(c' & _ & ->)]].
    unfold Groundhog.attack, Groundhog.getattr.
    rewrite lookup_insert_eq. cbn. rewrite Hclf. cbn. rewrite Hpredict. cbn.
    eexists. split; [reflexivity|]. split; [by rewrite length_fmap|]. split; [done|].
    apply Forall_fmap. eapply Forall_impl; [exact Hrange|].
    intros s [Hlo Hhi]. by apply round_0_or_1.
Qed.

(** A comprehension returns when its body does on every element, and
    then lists the body's values in order. *)
Lemma comprehension_Forall2 {A B} (f : A → result B) (xs : list A) (ys : list B) :
  Forall2 (λ x y, f x = Ok y) xs ys → Groundhog.comprehension f xs = Ok ys.
Proof.
  induction 1 as [|x y xs ys Hxy _ IH]; [done|]. cbn. rewrite Hxy. cbn. by rewrite IH.
Qed.

(** What [attack_score] is written to do, on an object that has been given
    the two attributes it reads: with a feature extractor under
    [FeatureSet] and a classifier under [Classifier] whose [predict_proba]
    gives one pair of probabilities summing to 1 per dataset, the call
    returns, entry by entry, the probability of the label in [secret], a
    value between 0 and 1. *)
Lemma attack_score_attached self (fs : F) (c : C) synT (secret : list Z) features probs :
  self !! "trained" = Some (Groundhog.VBool true) →
  self !! "FeatureSet" = Some (Groundhog.VFeatureSet fs) →
  self !! "Classifier" = Some (Groundhog.VClassifier c) →
  Groundhog.comprehension (extract fs) synT ≫= Groundhog.stack = Ok features →
  predict_proba c features = Ok probs →
  length probs = length synT →
  length secret = length synT →
  Forall (λ p, ∃ p0 p1, p = [p0; p1] ∧ (0 <= p0)%Q ∧ (0 <= p1)%Q ∧ (p0 + p1 == 1)%Q) probs →
  Forall (λ s, s = 0 ∨ s = 1) secret →
  ∃ out, Groundhog.attack_score self synT secret = Ok out ∧
         length out = length synT ∧
         Forall2 (λ ps x, Groundhog.getitem ps.1 ps.2 = Ok x) (zip probs secret) out ∧
         Forall (λ x, (0 <= x)%Q ∧ (x <= 1)%Q) out.
Proof.
  intros Hflag Hfs Hclf Hfeatures Hproba Hlen1 Hlen2 Hprobs Hsecret.
  assert (∃ out, Forall2 (λ ps x, Groundhog.getitem ps.1 ps.2 = Ok x) (zip probs secret) out ∧
                 length out = length probs ∧
                 Forall (λ x, (0 <= x)%Q ∧ (x <= 1)%Q) out) as (out & Hout & Hlen & Hrange).
  { assert (length probs = length secret) as Hlen by congruence.
    clear -Hprobs Hsecret Hlen. revert secret Hsecret Hlen.
    induction Hprobs as [|p probs (p0 & p1 & -> & Hp0 & Hp1 & Hsum) _ IH];
      intros [|s secret] Hsecret Hlen; try discriminate.
    - exists []. by repeat constructor.
    - apply Forall_cons in Hsecret as [Hs Hsecret].
      destruct (IH secret Hsecret ltac:(by injection Hlen)) as (out & Hout & Hlen' & Hrange).
      destruct Hs as [-> | ->]; [exists (p0 :: out) | exists (p1 :: out)];
        (split; [by constructor|]); (split; [cbn; by rewrite Hlen'|]);
        constructor; try done; split; try done.
      + rewrite <- Hsum. rewrite <- (Qplus_0_r p0) at 1. by apply Qplus_le_r.
      + rewrite <- Hsum. rewrite <- (Qplus_0_l p1) at 1. by apply Qplus_le_l. }
  exists out. split; [|split; [congruence|by split]].
  unfold Groundhog.attack_score, Groundhog.getattr.
  rewrite Hflag. cbn. rewrite Hfs. cbn. rewrite Hfeatures. cbn. rewrite Hclf. cbn.
  rewrite Hproba. cbn. by apply comprehension_Forall2.
Qed.

(** C1 on the objects a program can hold: once [trained] is True,
    [attack_score] passes its assertion and stops at [self.FeatureSet],
    an attribute that neither [__init__] nor [train] sets (they set
    [classifier], not [Classifier], and no [FeatureSet]); no probability is
    returned, whatever the datasets and the secret. *)
Theorem attack_score_raises self (synT : list TabularDataset) (secret : list Z) :
  reachable (T:=T) self →
  self !! "trained" = Some (Groundhog.VBool true) →
  Groundhog.attack_score self synT secret = Raise (AttributeError "FeatureSet").
Proof.
  intros [Hfs _]%reachable_attributes Hflag.
  unfold Groundhog.attack_score, Groundhog.getattr. by rewrite Hflag, Hfs.
Qed.

End groundhog.

(** [attack_score] with the two attributes attached by hand. *)
Example attack_score_attached_example :
  Groundhog.attack_score
    (<["Classifier" := Groundhog.VClassifier {| example.fits := 1 |}]>
       (<["FeatureSet" := Groundhog.VFeatureSet ()]> example.trained))
    [example.dataset [1]; example.dataset []] [1; 0]
  = Ok [(7 # 10)%Q; (3 # 10)%Q].
Proof. reflexivity. Qed.

Lemma attack_after_train_witness :
  Groundhog.attack example.fresh [example.dataset [1]; example.dataset []]
  = Raise (AssertionError "Attack must first be trained.") ∧
  (example.trained !! "trained" = Some (Groundhog.VBool true) ∧
   ∃ c, example.trained !! "classifier" = Some (Groundhog.VClassifier c)) ∧
  ∃ guesses,
    Groundhog.attack example.trained [example.dataset [1]; example.dataset []] = Ok guesses ∧
    length guesses = 2%nat ∧
    guesses = np.round <$> [(9 # 10)%Q; (1 # 10)%Q] ∧
    Forall (λ guess, guess = 0 ∨ guess = 1) guesses.
Proof.
  pose proof (attack_after_train (C:=example.counter) (F:=unit) (T:=unit)) as (Hbefore & Hflag & Hafter).
  split; [|split].
  - apply Hbefore. apply never_trained_init.
  - apply (Hflag example.fresh None 100 (Some [example.dataset [1; 2]]) (Some [1])).
    reflexivity.
  - apply (Hafter example.fresh None 100 (Some [example.dataset [1; 2]]) (Some [1])
             example.trained {| example.fits := 1 |}).
    + reflexivity.
    + reflexivity.
    + split; [reflexivity|]. split; [reflexivity|].
      repeat constructor; discriminate.
Defined.

Lemma attack_score_raises_witness :
  Groundhog.attack_score example.trained [example.dataset [1]] [1]
  = Raise (AttributeError "FeatureSet").
Proof.
  apply (attack_score_raises (T:=unit)).
  - apply (reachable_train example.fresh None 100 (Some [example.dataset [1; 2]]) (Some [1])).
    apply reachable_init.
  - reflexivity.
Defined.

(** * Further properties *)

(** ** get_records *)

Lemma position_Some (len : nat) (i : Z) :
  - Z.of_nat len ≤ i < Z.of_nat len →
  pd.position len i = Some (Z.to_nat (i `mod` Z.of_nat len)).
Proof.
  intros Hi. unfold pd.position. case_bool_decide.
  - by rewrite Z.mod_small.
  - rewrite bool_decide_eq_true_2 by lia. do 2 f_equal.
    apply Z.mod_unique with (-1); lia.
Qed.


Lemma position_lt (len : nat) (i : Z) (p : nat) :
  pd.position len i = Some p → (p < len)%nat.
Proof.
  unfold pd.position. repeat case_bool_decide; intros [= <-]; lia.
Qed.

Lemma iloc_in_range (df : pd.DataFrame) (ids : list Z) :
  Forall (λ i, - Z.of_nat (length df) ≤ i < Z.of_nat (length df)) ids →
  ∃ rows, pd.iloc df ids = Ok rows ∧
          Forall2 (λ i row, df !! Z.to_nat (i `mod` Z.of_nat (length df)) = Some row) ids rows.
Proof.
  induction 1 as [|i ids Hi _ (rows & Hrows & Hall)]; [by exists []|]. cbn.
  rewrite (position_Some _ _ Hi). cbn.
  destruct (lookup_lt_is_Some_2 df (Z.to_nat (i `mod` Z.of_nat (length df)))) as [row Hrow].
  { pose proof (Z.mod_pos_bound i (Z.of_nat (length df))). lia. }
  rewrite Hrow, Hrows. cbn. exists (row :: rows). split; [done|]. by constructor.
Qed.



Lemma iloc_all (before df : pd.DataFrame) :
  pd.iloc (before ++ df) (Z.of_nat <$> seq (length before) (length df)) = Ok df.
Proof.
  revert before. induction df as [|row df IH]; intros before; [done|]. cbn.
  rewrite position_Some by (rewrite length_app; cbn; lia).
  rewrite Z.mod_small by (rewrite length_app; cbn; lia).
  rewrite Nat2Z.id. cbn. rewrite lookup_app_r by done. rewrite Nat.sub_diag. cbn.
  specialize (IH (before ++ [row])). rewrite <- app_assoc, length_app in IH. cbn in IH.
  rewrite Nat.add_1_r in IH. by rewrite IH.
Qed.

(** X1.  With every position within the bounds (from [-len] up to
    [len - 1], a negative one counting from the end), [get_records]
    returns a dataset with the receiver's description and one row per
    position asked, in the order asked: the k-th row is the receiver's row,
    label and values, at the k-th position. *)
Theorem get_records_rows (D : TabularDataset) (record_ids : list Z) :
  Forall (λ i, - Z.of_nat (__len__ D) ≤ i < Z.of_nat (__len__ D)) record_ids →
  ∃ new, get_records D record_ids = Ok new ∧
         description new = description D ∧
         __len__ new = length record_ids ∧
         ∀ k i, record_ids !! k = Some i →
                data new !! k = data D !! Z.to_nat (i `mod` Z.of_nat (__len__ D)).
Proof.
  intros Hids. destruct (iloc_in_range _ _ Hids) as (rows & Hrows & Hall).
  unfold get_records. rewrite Hrows. cbn. eexists. split; [reflexivity|]. cbn.
  split; [done|]. split.
  - unfold __len__, pd.shape0. cbn. symmetry. by eapply Forall2_length.
  - intros k i Hk. destruct (Forall2_lookup_l _ _ _ _ _ Hall Hk) as (row & Hrow & Hlook).
    rewrite Hrow. symmetry. exact Hlook.
Qed.

Lemma get_records_rows_witness :
  ∃ new, get_records (example.dataset [5; 3; 4]) [2; -3; 2] = Ok new ∧
         description new = description (example.dataset [5; 3; 4]) ∧
         __len__ new = length [2; -3; 2] ∧
         ∀ k i, [2; -3; 2] !! k = Some i →
                data new !! k
                = data (example.dataset [5; 3; 4])
                    !! Z.to_nat (i `mod` Z.of_nat (__len__ (example.dataset [5; 3; 4]))).
Proof.
  apply (get_records_rows (example.dataset [5; 3; 4]) [2; -3; 2]).
  repeat constructor; cbn; lia.
Defined.




(** X4.  The positions 0, ..., len - 1 give the dataset back. *)
Theorem get_records_all (D : TabularDataset) :
  get_records D (Z.of_nat <$> seq 0 (__len__ D)) = Ok D.
Proof.
  destruct D as [df desc]. unfold get_records, __len__, pd.shape0. cbn.
  pose proof (iloc_all [] df) as Hall. cbn in Hall. by rewrite Hall.
Qed.

(** ** Filters *)

Lemma filter_keeps_all {A} (P : A → Prop) `{!∀ x, Decision (P x)} (l : list A) :
  Forall P l → filter P l = l.
Proof.
  induction 1 as [|x l Hx _ IH]; [done|]. rewrite filter_cons, decide_True by done.
  by rewrite IH.
Qed.

Lemma filter_keeps_none {A} (P : A → Prop) `{!∀ x, Decision (P x)} (l : list A) :
  Forall (λ x, ¬ P x) l → filter P l = [].
Proof.
  induction 1 as [|x l Hx _ IH]; [done|]. by rewrite filter_cons, decide_False.
Qed.

Lemma length_remove_dups_le {A} `{!EqDecision A} (l : list A) :
  (length (remove_dups l) ≤ length l)%nat.
Proof.
  induction l as [|x l IH]; [done|]. cbn. case_decide; cbn; lia.
Qed.

(** ** Addition and the empty dataset *)

(** X5.  [D.empty()] has no rows and is neutral for [+] on either side,
    for any dataset with the description of [D]. *)
Theorem empty_is_neutral (D other : TabularDataset) :
  description other = description D →
  __len__ <$> empty D = Ok 0%nat ∧
  (e ← empty D; __add__ e other) = Ok other ∧
  (e ← empty D; __add__ other e) = Ok other.
Proof.
  destruct other as [rows desc]. cbn. intros ->.
  unfold empty, get_records, __add__, assert. cbn.
  rewrite bool_decide_eq_true_2 by done. cbn.
  unfold pd.concat. by rewrite app_nil_r.
Qed.

Lemma empty_is_neutral_witness :
  __len__ <$> empty (example.dataset [5; 3]) = Ok 0%nat ∧
  (e ← empty (example.dataset [5; 3]); __add__ e (example.dataset [7])) = Ok (example.dataset [7]) ∧
  (e ← empty (example.dataset [5; 3]); __add__ (example.dataset [7]) e) = Ok (example.dataset [7]).
Proof.
  apply (empty_is_neutral (example.dataset [5; 3]) (example.dataset [7])). reflexivity.
Defined.

(** X6.  [+] is associative: [(A + B) + C] and [A + (B + C)] are the same
    dataset, or both raise the AssertionError for unequal descriptions. *)
Theorem add_assoc (A B C : TabularDataset) :
  (ab ← __add__ A B; __add__ ab C) = (bc ← __add__ B C; __add__ A bc).
Proof.
  unfold __add__, assert.
  destruct (decide (description A = description B)) as [Hab|Hab];
    destruct (decide (description B = description C)) as [Hbc|Hbc].
  - rewrite !bool_decide_eq_true_2 by done. cbn.
    rewrite !bool_decide_eq_true_2 by congruence. cbn.
    unfold pd.concat. by rewrite app_assoc.
  - rewrite (bool_decide_eq_true_2 _ Hab), (bool_decide_eq_false_2 _ Hbc). cbn.
    by rewrite bool_decide_eq_false_2 by congruence.
  - rewrite (bool_decide_eq_false_2 _ Hab), (bool_decide_eq_true_2 _ Hbc). cbn.
    by rewrite bool_decide_eq_false_2 by done.
  - by rewrite (bool_decide_eq_false_2 _ Hab), (bool_decide_eq_false_2 _ Hbc).
Qed.

(** ** In place and not *)


(** X8.  With descriptions that agree, [replace(..., in_place=True)] is
    all or nothing: when it raises, the receiver is as it was. *)
Theorem replace_in_place_all_or_nothing (D records_in : TabularDataset)
    (records_out : list pd.label) (g : RandomState) (D' : TabularDataset) (e : exception) :
  description D = description records_in →
  replace D records_in records_out true g = (D', Raise e) →
  D' = D.
Proof.
  intros Hdesc. unfold replace.
  destruct (if bool_decide _ then _ else _); [|by intros [= <- _]].
  unfold drop_records. destruct (_ ≫= _) as [rows|]; [|by intros [= <- _]].
  unfold add_records, assert, set_data. cbn.
  rewrite bool_decide_eq_true_2 by done. discriminate.
Qed.

Lemma replace_in_place_all_or_nothing_witness :
  description (example.dataset [5; 3]) = description (example.dataset [9]) ∧
  replace (example.dataset [5; 3]) (example.dataset [9]) [pd.LInt 7] true example.zeros
  = (example.dataset [5; 3], Raise KeyError) ∧
  example.dataset [5; 3] = example.dataset [5; 3].
Proof.
  split; [reflexivity|]. split; [reflexivity|].
  apply (replace_in_place_all_or_nothing (example.dataset [5; 3]) (example.dataset [9])
           [pd.LInt 7] example.zeros (example.dataset [5; 3]) KeyError); reflexivity.
Defined.

(** ** drop_records *)

(** X9.  A label that no row carries, anywhere in a non-empty list of ids,
    makes [drop_records] raise KeyError; the receiver is untouched, with
    or without [in_place]. *)
Theorem drop_records_missing_label (D : TabularDataset) (record_ids : list pd.label)
    (l : pd.label) (n : Z) (in_place : bool) (g : RandomState) :
  l ∈ record_ids → l ∉ pd.index (data D) →
  drop_records D record_ids n in_place g = (D, Raise KeyError).
Proof.
  intros Hl Hmissing. unfold drop_records.
  rewrite bool_decide_eq_false_2 by (destruct record_ids; [by inversion Hl | discriminate]).
  cbn. unfold pd.drop. rewrite bool_decide_eq_false_2; [done|].
  intros Hall. apply Hmissing. rewrite Forall_forall in Hall. by apply Hall.
Qed.

Lemma drop_records_missing_label_witness :
  drop_records (example.dataset [5; 3]) [pd.LInt 0; pd.LInt 2] 1 true example.zeros
  = (example.dataset [5; 3], Raise KeyError).
Proof.
  apply (drop_records_missing_label (example.dataset [5; 3]) [pd.LInt 0; pd.LInt 2] (pd.LInt 2)).
  - apply list_elem_of_In. cbn. tauto.
  - intros Hin. apply list_elem_of_In in Hin. cbn in Hin.
    destruct Hin as [[=]|[[=]|[]]].
Defined.

Lemma random_choice_Ok {A} (g : RandomState) (a : list A) (n : Z) :
  0 < n → a ≠ [] →
  ∃ chosen, np.random_choice g a n = Ok chosen ∧
            length chosen = Z.to_nat n ∧ chosen ≠ [] ∧ Forall (λ x, x ∈ a) chosen.
Proof.
  intros Hn Ha. unfold np.random_choice.
  rewrite !bool_decide_eq_false_2 by lia. destruct a as [|x a]; [done|].
  eexists. split; [reflexivity|]. split; [by rewrite length_fmap, length_seq|]. split.
  - destruct (Z.to_nat n) eqn:Hk; [lia|]. done.
  - assert (∀ k, default x ((x :: a) !! (g k mod length (x :: a))%nat) ∈ x :: a) as Hpick.
    { intros k.
      destruct (lookup_lt_is_Some_2 (x :: a) (g k mod length (x :: a))) as [y Hy].
      { apply Nat.mod_upper_bound. done. }
      rewrite Hy. by eapply list_elem_of_lookup_2. }
    apply Forall_fmap, Forall_forall. intros k _. apply Hpick.
Qed.

(** X10.  With no ids given, [n ≥ 1], and a non-empty dataset whose index
    labels are pairwise distinct, [drop_records] returns a dataset that
    lacks exactly the rows whose labels were drawn: at least one row and
    at most [n] rows are gone, and the rows left are in their old order. *)
Theorem drop_records_random_bounds (D : TabularDataset) (n : Z) (g : RandomState) :
  NoDup (pd.index (data D)) → data D ≠ [] → 1 ≤ n →
  ∃ chosen new,
    np.random_choice g (pd.index (data D)) n = Ok chosen ∧
    drop_records D [] n false g = (D, Ok (Some new)) ∧
    data new = filter (λ row, row.1 ∉ chosen) (data D) ∧
    Z.of_nat (__len__ D) - n ≤ Z.of_nat (__len__ new) ≤ Z.of_nat (__len__ D) - 1.
Proof.
  intros Hlabels Hrows Hn.
  destruct (random_choice_Ok g (pd.index (data D)) n) as (chosen & Hchoice & Hlen & Hne & Hin).
  { lia. } { unfold pd.index. by destruct (data D). }
  exists chosen. eexists. split; [done|]. unfold drop_records.
  rewrite (bool_decide_eq_true_2 (length [] = 0%nat)) by done. rewrite Hchoice.
  change (Ok chosen ≫= pd.drop (data D)) with (pd.drop (data D) chosen).
  unfold pd.drop. rewrite bool_decide_eq_true_2 by done.
  split; [reflexivity|]. split; [reflexivity|]. unfold __len__, pd.shape0. cbn.
  pose proof (length_filter_unlisted (data D) chosen) as Hsum.
  assert (length (filter (λ row, row.1 ∈ chosen) (data D)) = length (remove_dups chosen))
    as Hgone.
  { rewrite <- (length_filter_listed (data D) (remove_dups chosen)).
    - f_equal. apply list_filter_iff. intros row. by rewrite elem_of_remove_dups.
    - done.
    - apply NoDup_remove_dups.
    - intros l Hl. rewrite elem_of_remove_dups in Hl.
      rewrite Forall_forall in Hin. by apply Hin. }
  pose proof (length_remove_dups_le chosen) as Hle.
  assert (0 < length (remove_dups chosen))%nat as Hpos.
  { destruct chosen as [|x chosen]; [done|].
    assert (x ∈ remove_dups (x :: chosen)) as Hx by (apply elem_of_remove_dups; by left).
    destruct (remove_dups (x :: chosen)); [by inversion Hx | cbn; lia]. }
  lia.
Qed.

Lemma drop_records_random_bounds_witness :
  ∃ chosen new,
    np.random_choice example.counting (pd.index (data (example.dataset [5; 3; 4]))) 2
    = Ok chosen ∧
    drop_records (example.dataset [5; 3; 4]) [] 2 false example.counting
    = (example.dataset [5; 3; 4], Ok (Some new)) ∧
    data new = filter (λ row, row.1 ∉ chosen) (data (example.dataset [5; 3; 4])) ∧
    Z.of_nat (__len__ (example.dataset [5; 3; 4])) - 2 ≤ Z.of_nat (__len__ new)
    ≤ Z.of_nat (__len__ (example.dataset [5; 3; 4])) - 1.
Proof.
  apply (drop_records_random_bounds (example.dataset [5; 3; 4]) 2 example.counting).
  - compute_done.
  - discriminate.
  - lia.
Defined.

(** X11.  With no ids given: [n = 0] drops nothing (the copy equals the
    receiver, and in place the receiver stays as it is); a negative [n]
    raises ValueError, and so does a positive [n] on a dataset without
    rows. *)
Theorem drop_records_random_edges (D : TabularDataset) (n : Z) (in_place : bool)
    (g : RandomState) :
  (n = 0 → drop_records D [] n in_place g
           = (D, Ok (if in_place then None else Some D))) ∧
  (n < 0 → drop_records D [] n in_place g = (D, Raise ValueError)) ∧
  (0 < n → data D = [] → drop_records D [] n in_place g = (D, Raise ValueError)).
Proof.
  destruct D as [rows desc]. unfold drop_records, np.random_choice. cbn [data length].
  rewrite (bool_decide_eq_true_2 (0%nat = 0%nat)) by done.
  split; [|split].
  - intros ->. rewrite (bool_decide_eq_false_2 (0 < 0)) by lia.
    rewrite (bool_decide_eq_true_2 (0 = 0)) by done.
    change (Ok [] ≫= pd.drop rows) with (pd.drop rows []).
    unfold pd.drop. rewrite bool_decide_eq_true_2 by constructor.
    rewrite filter_keeps_all by (apply Forall_forall; intros ? _; by inversion 1).
    by destruct in_place.
  - intros Hn. by rewrite (bool_decide_eq_true_2 (n < 0)).
  - intros Hn ->. rewrite (bool_decide_eq_false_2 (n < 0)) by lia.
    by rewrite (bool_decide_eq_false_2 (n = 0)) by lia.
Qed.

Lemma drop_records_random_edges_witness :
  drop_records (example.dataset [5; 3]) [] 0 false example.zeros
  = (example.dataset [5; 3], Ok (Some (example.dataset [5; 3]))) ∧
  drop_records (example.dataset [5; 3]) [] (-1) true example.zeros
  = (example.dataset [5; 3], Raise ValueError) ∧
  drop_records (example.dataset []) [] 1 false example.zeros
  = (example.dataset [], Raise ValueError).
Proof.
  split; [|split].
  - apply (proj1 (drop_records_random_edges (example.dataset [5; 3]) 0 false example.zeros)).
    reflexivity.
  - apply (proj1 (proj2 (drop_records_random_edges (example.dataset [5; 3]) (-1) true
                           example.zeros))).
    reflexivity.
  - apply (proj2 (proj2 (drop_records_random_edges (example.dataset []) 1 false
                           example.zeros))); reflexivity.
Defined.

(** X12.  Adding and dropping again: when no label of [A] is a label of
    [B], dropping the labels of [B] from [A + B] gives [A] back. *)
Theorem add_then_drop (A B : TabularDataset) (n : Z) (g : RandomState) :
  description A = description B → data B ≠ [] →
  (∀ l, l ∈ pd.index (data A) → l ∉ pd.index (data B)) →
  ∃ AB, __add__ A B = Ok AB ∧
        drop_records AB (pd.index (data B)) n false g = (AB, Ok (Some A)).
Proof.
  destruct A as [rowsA descA], B as [rowsB descB]. cbn. intros <- Hne Hdisjoint.
  unfold __add__, assert. rewrite bool_decide_eq_true_2 by done. cbn.
  eexists. split; [reflexivity|]. unfold drop_records. cbn.
  rewrite bool_decide_eq_false_2 by (unfold pd.index; destruct rowsB; [done | discriminate]).
  cbn. unfold pd.drop, pd.concat.
  rewrite bool_decide_eq_true_2.
  2:{ apply Forall_forall. intros l Hl. unfold pd.index in *.
      rewrite fmap_app, elem_of_app. by right. }
  rewrite filter_app, filter_keeps_all, filter_keeps_none, app_nil_r; [done| |].
  - apply Forall_forall. intros row Hrow Hnot. apply Hnot.
    unfold pd.index. apply list_elem_of_fmap. eauto.
  - apply Forall_forall. intros row Hrow. apply Hdisjoint.
    unfold pd.index. apply list_elem_of_fmap. eauto.
Qed.

Lemma add_then_drop_witness :
  ∃ AB, __add__ (example.dataset [5; 3])
          {| data := [(pd.LStr "target", [pd.CInt 9])]; description := example.ages |} = Ok AB ∧
        drop_records AB
          (pd.index (data {| data := [(pd.LStr "target", [pd.CInt 9])];
                             description := example.ages |})) 1 false example.zeros
        = (AB, Ok (Some (example.dataset [5; 3]))).
Proof.
  apply (add_then_drop (example.dataset [5; 3])
           {| data := [(pd.LStr "target", [pd.CInt 9])]; description := example.ages |}).
  - reflexivity.
  - discriminate.
  - intros l Hl Hl'. apply list_elem_of_In in Hl, Hl'. cbn in Hl, Hl'.
    destruct Hl' as [<-|[]]. destruct Hl as [[=]|[[=]|[]]].
Defined.

Lemma replace_length_mismatch_witness :
  replace (example.dataset [5; 3]) (example.dataset [9]) [pd.LInt 0; pd.LInt 1] true
    example.zeros
  = (example.dataset [5; 3],
     Raise (AssertionError "Number of records out must equal number of records in")).
Proof.
  apply (replace_length_mismatch (example.dataset [5; 3]) (example.dataset [9])
           [pd.LInt 0; pd.LInt 1] true example.zeros).
  - discriminate.
  - cbn. lia.
Defined.

(** ** replace *)

(** X13.  With equal descriptions, pairwise distinct index labels in the
    receiver, and as many distinct labels of the receiver in [records_out]
    as [records_in] has rows, [replace] returns a dataset of the size of
    the receiver: the rows whose label is not listed, in order, followed by
    the rows of [records_in]. *)
Theorem replace_listed (D records_in : TabularDataset) (records_out : list pd.label)
    (g : RandomState) :
  description D = description records_in →
  NoDup (pd.index (data D)) → NoDup records_out → records_out ⊆ pd.index (data D) →
  records_out ≠ [] → length records_out = __len__ records_in →
  ∃ new, replace D records_in records_out false g = (D, Ok (Some new)) ∧
         __len__ new = __len__ D ∧
         data new = filter (λ row, row.1 ∉ records_out) (data D) ++ data records_in ∧
         description new = description D.
Proof.
  intros Hdesc Hlabels Hout Hsub Hne Hlen. unfold replace, assert.
  rewrite bool_decide_eq_true_2 by (destruct records_out; [done | cbn; lia]).
  rewrite bool_decide_eq_true_2 by done.
  unfold drop_records.
  rewrite bool_decide_eq_false_2 by (destruct records_out; [done | discriminate]).
  change (Ok records_out ≫= pd.drop (data D)) with (pd.drop (data D) records_out).
  unfold pd.drop. rewrite bool_decide_eq_true_2 by (apply Forall_forall; intros l Hl; by apply Hsub).
  unfold add_records, __add__, assert. cbn. rewrite bool_decide_eq_true_2 by done. cbn.
  eexists. split; [reflexivity|]. cbn. split; [|done].
  unfold __len__, pd.shape0, pd.concat in *. cbn. rewrite length_app.
  pose proof (length_filter_unlisted (data D) records_out) as Hsum.
  rewrite (length_filter_listed _ _ Hlabels Hout Hsub) in Hsum. lia.
Qed.

Lemma replace_listed_witness :
  ∃ new, replace (example.dataset [5; 3; 4]) (example.dataset [9]) [pd.LInt 1] false
           example.zeros
         = (example.dataset [5; 3; 4], Ok (Some new)) ∧
         __len__ new = __len__ (example.dataset [5; 3; 4]) ∧
         data new = filter (λ row, row.1 ∉ [pd.LInt 1]) (data (example.dataset [5; 3; 4]))
                    ++ data (example.dataset [9]) ∧
         description new = description (example.dataset [5; 3; 4]).
Proof.
  apply (replace_listed (example.dataset [5; 3; 4]) (example.dataset [9]) [pd.LInt 1]).
  - reflexivity.
  - compute_done.
  - compute_done.
  - intros l Hl. apply list_elem_of_In in Hl. apply list_elem_of_In. cbn in *.
    destruct Hl as [<-|[]]. tauto.
  - discriminate.
  - reflexivity.
Defined.

(** ** sample *)

Lemma draw_distinct_submseteq {A} (g : RandomState) (k : nat) (pool : list A) (n : nat) :
  pd.draw_distinct g k pool n ⊆+ pool.
Proof.
  revert k pool. induction n as [|n IH]; intros k pool; cbn; [apply submseteq_nil_l|].
  destruct (pool !! (g k mod length pool)%nat) as [x|] eqn:Hx; [|apply submseteq_nil_l].
  etrans; [apply submseteq_skip, IH|].
  apply Permutation_submseteq. symmetry. by apply delete_Permutation.
Qed.

(** X15.  Without a fraction, [sample] returns for [0 ≤ n_samples ≤ len]
    a dataset of [n_samples] rows with the receiver's description, in which
    no row occurs more often than in the receiver (a draw without
    replacement); for any other [n_samples] it raises ValueError. *)
Theorem sample_rows (D : TabularDataset) (n_samples : Z) (random_state : RandomState) :
  (0 ≤ n_samples ≤ Z.of_nat (__len__ D) →
   ∃ new, sample D n_samples None random_state = Ok new ∧
          Z.of_nat (__len__ new) = n_samples ∧
          data new ⊆+ data D ∧
          description new = description D) ∧
  (¬ (0 ≤ n_samples ≤ Z.of_nat (__len__ D)) →
   sample D n_samples None random_state = Raise ValueError).
Proof.
  unfold sample, pd.sample, __len__, pd.shape0. split; intros Hn.
  - rewrite bool_decide_eq_true_2 by done. cbn. eexists. split; [reflexivity|]. cbn.
    split; [|split; [apply draw_distinct_submseteq | done]].
    rewrite length_draw_distinct; lia.
  - by rewrite bool_decide_eq_false_2.
Qed.

Lemma sample_rows_witness :
  (∃ new, sample (example.dataset [5; 3; 4]) 2 None example.counting = Ok new ∧
          Z.of_nat (__len__ new) = 2 ∧
          data new ⊆+ data (example.dataset [5; 3; 4]) ∧
          description new = description (example.dataset [5; 3; 4])) ∧
  sample (example.dataset [5; 3; 4]) 4 None example.counting = Raise ValueError.
Proof.
  split.
  - apply (proj1 (sample_rows (example.dataset [5; 3; 4]) 2 example.counting)). cbn. lia.
  - apply (proj2 (sample_rows (example.dataset [5; 3; 4]) 4 example.counting)). cbn. lia.
Defined.

(** ** The outer merge *)

Lemma elem_of_distinct (seen ks : list (list pd.cell)) (k : list pd.cell) :
  k ∈ pd.distinct seen ks ↔ k ∈ ks ∧ k ∉ seen.
Proof.
  revert seen. induction ks as [|k' ks IH]; intros seen; cbn.
  - split; [by inversion 1 | by intros [? _]; inversion H].
  - case_decide as Hseen.
    + rewrite IH, elem_of_cons. split; [tauto|]. intros [[->|?] ?]; tauto.
    + rewrite !elem_of_cons, IH, elem_of_cons. split.
      * intros [->|[? ?]]; tauto.
      * intros [[->|?] ?]; [tauto|]. destruct (decide (k = k')); tauto.
Qed.

Lemma NoDup_distinct (seen ks : list (list pd.cell)) : NoDup (pd.distinct seen ks).
Proof.
  revert seen. induction ks as [|k ks IH]; intros seen; cbn; [constructor|].
  case_decide; [apply IH|]. constructor; [|apply IH].
  rewrite elem_of_distinct, elem_of_cons. tauto.
Qed.

Lemma insert_key_Permutation (k : list pd.cell) (ks : list (list pd.cell)) :
  pd.insert_key k ks ≡ₚ k :: ks.
Proof.
  induction ks as [|k' ks IH]; [done|]. cbn.
  destruct (pd.key_compare k k'); [done|done|]. rewrite IH. apply Permutation_swap.
Qed.

Lemma sort_keys_Permutation (ks : list (list pd.cell)) : pd.sort_keys ks ≡ₚ ks.
Proof.
  induction ks as [|k ks IH]; [done|]. unfold pd.sort_keys in *. cbn.
  by rewrite insert_key_Permutation, IH.
Qed.

Lemma NoDup_join_keys (order : pd.key_order) (left right : pd.DataFrame) :
  NoDup (pd.join_keys order left right).
Proof.
  unfold pd.join_keys. destruct order; [|apply NoDup_distinct].
  rewrite sort_keys_Permutation. apply NoDup_distinct.
Qed.

Lemma elem_of_join_keys (order : pd.key_order) (left right : pd.DataFrame) (k : list pd.cell) :
  k ∈ pd.join_keys order left right ↔ k ∈ left.*2 ∨ k ∈ right.*2.
Proof.
  unfold pd.join_keys. destruct order; rewrite ?sort_keys_Permutation;
    rewrite elem_of_distinct, elem_of_app; split; try tauto;
    (intros H; split; [done | by inversion 1]).
Qed.

(** The labels of the rows that a filter keeps are the places of these
    rows; a filter on the rows alone keeps as many. *)
Lemma length_filter_imap {A} (P : A → Prop) `{!∀ x, Decision (P x)} (f : nat → nat)
    (l : list A) :
  length (filter (λ row, P row.2) (imap (λ i x, (f i, x)) l)) = length (filter P l).
Proof.
  revert f. induction l as [|x l IH]; intros f; [done|].
  rewrite imap_cons, !filter_cons. specialize (IH (f ∘ S)). cbn [snd].
  case_decide; cbn [length]; by rewrite <- IH.
Qed.

Lemma elem_of_filter_imap {A} (P : A → Prop) `{!∀ x, Decision (P x)} (l : list A)
    (pos : nat) (x : A) :
  (pos, x) ∈ filter (λ row, P row.2) (imap pair l) → l !! pos = Some x ∧ P x.
Proof.
  intros [HP Hin]%list_elem_of_filter. split; [|done].
  apply elem_of_lookup_imap in Hin as (i & y & [= -> ->] & Hy). done.
Qed.

Lemma length_filter_bind_one {A B} `{!EqDecision A} (P : B → Prop) `{!∀ x, Decision (P x)}
    (f : A → list B) (ks : list A) (v : A) (c : nat) :
  NoDup ks → (∀ k, k ≠ v → filter P (f k) = []) → length (filter P (f v)) = c →
  length (filter P (ks ≫= f)) = if decide (v ∈ ks) then c else 0%nat.
Proof.
  intros Hks Hother Hv. induction Hks as [|k ks Hk _ IH]; [done|].
  change ((k :: ks) ≫= f) with (f k ++ (ks ≫= f)).
  rewrite filter_app, length_app, IH.
  destruct (decide (k = v)) as [->|Hkv].
  - rewrite Hv, (decide_False (P:=v ∈ ks)) by done.
    rewrite decide_True by (by left). lia.
  - rewrite (Hother k Hkv). cbn.
    destruct (decide (v ∈ ks)) as [Hin|Hin].
    + by rewrite decide_True by (by right).
    + rewrite decide_False; [done|]. rewrite elem_of_cons.
      intros [Heq|?]; [by apply Hkv | done].
Qed.

Lemma filter_replicate_both (n : nat) (k : list pd.cell) (i : pd.indicator) :
  length (filter (λ m : list pd.cell * pd.indicator, m.2 = pd.both) (replicate n (k, i)))
  = if decide (i = pd.both) then n else 0%nat.
Proof.
  induction n as [|n IH]; [by case_decide|].
  change (replicate (S n) (k, i)) with ((k, i) :: replicate n (k, i)).
  rewrite filter_cons. cbn [snd].
  destruct (decide (i = pd.both)) as [Hi|Hi].
  - cbn [length]. by rewrite IH.
  - by rewrite IH.
Qed.

(** The rows marked [both] when the right frame is one row: as many as the
    left frame has rows with that row's values. *)
Lemma merge_outer_both (order : pd.key_order) (left : pd.DataFrame) (l : pd.label)
    (v : list pd.cell) :
  length (filter (λ m, m.2 = pd.both) (pd.merge_outer order left [(l, v)]))
  = length (filter (λ row, row.2 = v) left).
Proof.
  unfold pd.merge_outer.
  rewrite (length_filter_bind_one _ _ _ v (length (filter (λ row, row.2 = v) left))).
  - rewrite decide_True; [done|]. apply elem_of_join_keys. right. cbn. by left.
  - apply NoDup_join_keys.
  - intros k Hk. cbv zeta.
    rewrite (filter_cons _ (l, v)), decide_False, filter_nil by (cbn; congruence).
    cbn [length]. apply length_zero_iff_nil.
    destruct (length (filter _ left)); cbv beta iota; by rewrite filter_replicate_both.
  - cbv zeta. rewrite (filter_cons _ (l, v)), decide_True, filter_nil by done.
    cbn [length].
    destruct (length (filter _ left)) as [|n]; cbv beta iota;
      rewrite filter_replicate_both; [done|]. rewrite decide_True by done. lia.
Qed.


(** ** TabularRecord, continued *)



Lemma distinct_known (seen ks : list (list pd.cell)) (v : list pd.cell) :
  NoDup ks → (∀ k, k ∈ ks → k ∉ seen) → v ∈ ks ∨ v ∈ seen →
  pd.distinct seen (ks ++ [v]) = ks.
Proof.
  intros Hks. revert seen. induction Hks as [|k ks Hk _ IH]; intros seen Hfresh Hv; cbn.
  - destruct Hv as [Hv|Hv]; [by inversion Hv|]. by rewrite decide_True.
  - rewrite decide_False by (apply Hfresh; by left). f_equal. apply IH.
    + intros k' Hk' [->|Hseen]%elem_of_cons; [done|].
      by apply (Hfresh k'); [right|].
    + rewrite elem_of_cons. destruct Hv as [[->|Hv]%elem_of_cons|Hv]; tauto.
Qed.

Lemma bind_singletons {A B} (f : A → list B) (g : A → B) (ks : list A) :
  Forall (λ k, f k = [g k]) ks → ks ≫= f = g <$> ks.
Proof.
  induction 1 as [|k ks Hk _ IH]; [done|].
  change ((k :: ks) ≫= f) with (f k ++ (ks ≫= f)). by rewrite Hk, IH.
Qed.

Lemma length_filter_values (df : pd.DataFrame) (k : list pd.cell) :
  NoDup df.*2 → k ∈ df.*2 → length (filter (λ row, row.2 = k) df) = 1%nat.
Proof.
  induction df as [|row df IH]; [by inversion 2|].
  rewrite fmap_cons, NoDup_cons, elem_of_cons. intros [Hrow Hdf] Hk. rewrite filter_cons.
  case_decide as Heq.
  - cbn. f_equal. apply length_zero_iff_nil, filter_keeps_none, Forall_forall.
    intros row' Hin Heq'. apply Hrow. rewrite Heq, <- Heq'. apply list_elem_of_fmap. eauto.
  - apply IH; [done|]. destruct Hk as [->|Hk]; [done|done].
Qed.

(** With pairwise distinct row values on the left and one of them on the
    right, the merge in first-seen order lists the left rows in place, the
    one with the right row's values marked [both]. *)
Lemma merge_outer_first_seen_distinct (left : pd.DataFrame) (l : pd.label)
    (v : list pd.cell) :
  NoDup left.*2 → v ∈ left.*2 →
  pd.merge_outer pd.first_seen left [(l, v)]
  = (λ k, (k, if decide (k = v) then pd.both else pd.left_only)) <$> left.*2.
Proof.
  intros Hleft Hv. unfold pd.merge_outer, pd.join_keys.
  change ([(l, v)].*2) with [v].
  rewrite (distinct_known [] left.*2 v Hleft); [|by inversion 2|by left].
  apply bind_singletons, Forall_forall. intros k Hk. cbv zeta.
  rewrite (length_filter_values left k Hleft Hk). rewrite (filter_cons _ (l, v)), filter_nil.
  cbn [snd]. destruct (decide (v = k)) as [->|Hne].
  - by rewrite decide_True.
  - by rewrite decide_False.
Qed.

(** X19.  The round trip of identities, where it holds: when the rows of
    [D] have pairwise distinct values and the merge keeps keys in the order
    first seen (pandas before 2.2), the record made of the row at position
    [i] of [D] gets from [get_id] that position, counted from the start. *)
Theorem get_id_round_trip_first_seen (D : TabularDataset) (i : Z) :
  NoDup (data D).*2 → - Z.of_nat (__len__ D) ≤ i < Z.of_nat (__len__ D) →
  (row ← get_records D [i]; record ← from_dataset row; get_id pd.first_seen record D)
  = Ok (i `mod` Z.of_nat (__len__ D)).
Proof.
  unfold __len__, pd.shape0. intros Hvalues Hi. unfold get_records. cbn [pd.iloc].
  rewrite (position_Some _ _ Hi). cbn [mbind option_bind].
  pose proof (Z.mod_pos_bound i (Z.of_nat (length (data D))) ltac:(lia)) as Hmod.
  set (p := Z.to_nat (i `mod` Z.of_nat (length (data D)))).
  destruct (lookup_lt_is_Some_2 (data D) p ltac:(lia)) as [[l v] Hrow].
  rewrite Hrow. cbn -[get_id from_dataset].
  assert (from_dataset {| data := [(l, v)]; description := description D |}
          = Ok {| as_dataset := {| data := [(l, v)]; description := description D |};
                  id := l |}) as -> by reflexivity.
  cbn -[get_id]. unfold get_id. cbn [data as_dataset].
  assert (v ∈ (data D).*2) as Hv.
  { apply list_elem_of_fmap. exists (l, v). split; [done|]. by eapply list_elem_of_lookup_2. }
  pose proof (merge_outer_both pd.first_seen (data D) l v) as Hcount.
  rewrite (length_filter_values _ _ Hvalues Hv) in Hcount.
  rewrite <- (length_filter_imap (λ m, m.2 = pd.both) (λ j, j)) in Hcount.
  change (imap (λ j x, (j, x))) with (imap (@pair nat (list pd.cell * pd.indicator)))
    in Hcount.
  destruct (filter _ (imap pair _)) as [|[pos m] [|? ?]] eqn:Hmatched; try discriminate.
  cbn. f_equal.
  assert ((pos, m) ∈ filter (λ row : nat * (list pd.cell * pd.indicator), row.2.2 = pd.both)
            (imap pair (pd.merge_outer pd.first_seen (data D) [(l, v)]))) as Hin
    by (rewrite Hmatched; by left).
  destruct (elem_of_filter_imap (λ m : list pd.cell * pd.indicator, m.2 = pd.both)
              _ _ _ Hin) as [Hlook Hboth].
  rewrite (merge_outer_first_seen_distinct _ _ _ Hvalues Hv), list_lookup_fmap in Hlook.
  destruct ((data D).*2 !! pos) as [k|] eqn:Hk; [|done]. injection Hlook as <-.
  cbn in Hboth. destruct (decide (k = v)) as [->|]; [|done].
  assert ((data D).*2 !! p = Some v) as Hp by (by rewrite list_lookup_fmap, Hrow).
  rewrite (NoDup_lookup _ _ _ _ Hvalues Hk Hp). unfold p. lia.
Qed.

Lemma get_id_round_trip_first_seen_witness :
  (row ← get_records (example.dataset [5; 3; 4]) [-1];
   record ← from_dataset row;
   get_id pd.first_seen record (example.dataset [5; 3; 4]))
  = Ok ((-1) `mod` Z.of_nat (__len__ (example.dataset [5; 3; 4]))).
Proof.
  apply (get_id_round_trip_first_seen (example.dataset [5; 3; 4]) (-1)).
  - compute_done.
  - cbn. lia.
Defined.

(** X16.  A record made of the row at an in-range position [i] of [D]
    carries that row and, as its [id], the index label the row has in [D]
    (not the position); [from_dataset] on the rows of any other number of
    positions raises AssertionError. *)
Theorem from_dataset_of_rows (D : TabularDataset) :
  (∀ i l v,
     - Z.of_nat (__len__ D) ≤ i < Z.of_nat (__len__ D) →
     data D !! Z.to_nat (i `mod` Z.of_nat (__len__ D)) = Some (l, v) →
     get_records D [i] ≫= from_dataset
     = Ok {| as_dataset := {| data := [(l, v)]; description := description D |};
             id := l |}) ∧
  (∀ record_ids,
     Forall (λ i, - Z.of_nat (__len__ D) ≤ i < Z.of_nat (__len__ D)) record_ids →
     length record_ids ≠ 1%nat →
     get_records D record_ids ≫= from_dataset
     = Raise (AssertionError "Parent TabularDataset object must contain only 1 record")).
Proof.
  unfold __len__, pd.shape0. split.
  - intros i l v Hi Hrow. unfold get_records. cbn [pd.iloc].
    rewrite (position_Some _ _ Hi). cbn [mbind option_bind]. by rewrite Hrow.
  - intros record_ids Hids Hlen.
    destruct (iloc_in_range _ _ Hids) as (rows & Hrows & Hall).
    unfold get_records. rewrite Hrows. cbn. unfold from_dataset, pd.shape0. cbn.
    apply Forall2_length in Hall. by rewrite bool_decide_eq_true_2 by congruence.
Qed.

Lemma from_dataset_of_rows_witness :
  get_records (example.dataset [5; 3; 4]) [-1] ≫= from_dataset
  = Ok {| as_dataset := {| data := [(pd.LInt 2, [pd.CInt 4])];
                           description := description (example.dataset [5; 3; 4]) |};
          id := pd.LInt 2 |} ∧
  get_records (example.dataset [5; 3; 4]) [0; 1] ≫= from_dataset
  = Raise (AssertionError "Parent TabularDataset object must contain only 1 record").
Proof.
  split.
  - apply (proj1 (from_dataset_of_rows (example.dataset [5; 3; 4])) (-1)).
    + cbn. lia.
    + reflexivity.
  - apply (proj2 (from_dataset_of_rows (example.dataset [5; 3; 4])) [0; 1]).
    + repeat constructor; cbn; lia.
    + discriminate.
Defined.

(** X17.  On a record whose frame does not have exactly one row, [set_id]
    raises ValueError when it assigns the index, after [self.id] has been
    overwritten: the record is left with the new [id] and its old frame. *)
Theorem set_id_not_single (r : TabularRecord) (x : pd.label) :
  __len__ r ≠ 1%nat →
  set_id r x = ({| as_dataset := as_dataset r; id := x |}, Raise ValueError).
Proof.
  destruct r as [[rows desc] old]. unfold __len__, pd.shape0, set_id. cbn.
  by destruct rows as [|[? ?] [|? ?]].
Qed.

Lemma set_id_not_single_witness :
  set_id {| as_dataset := example.dataset [5; 3]; id := pd.LInt 0 |} (pd.LInt 9)
  = ({| as_dataset := example.dataset [5; 3]; id := pd.LInt 9 |}, Raise ValueError).
Proof.
  apply (set_id_not_single {| as_dataset := example.dataset [5; 3]; id := pd.LInt 0 |}).
  discriminate.
Defined.

(** ** Containment *)







(** ** Iteration *)


(** X24.  Adding up the records of a dataset, starting from its empty
    dataset, gives the dataset back. *)
Theorem iter_sum (D : TabularDataset) :
  foldl (λ total element, t ← total; record ← element; __add__ t (as_dataset record))
    (empty D) (__iter__ D)
  = Ok D.
Proof.
  destruct D as [rows desc]. unfold empty, get_records, __iter__. cbn.
  assert (∀ before,
            foldl (λ total element,
                     t ← total; record ← element; __add__ t (as_dataset record))
              (Ok {| data := before; description := desc |})
              ((λ row, from_dataset {| data := [row]; description := desc |}) <$> rows)
            = Ok {| data := before ++ rows; description := desc |}) as Hfold.
  { induction rows as [|[l v] rows IH]; intros before; cbn [foldl fmap list_fmap].
    - by rewrite app_nil_r.
    - replace (Ok {| data := before; description := desc |}
               ≫= λ t, from_dataset {| data := [(l, v)]; description := desc |}
               ≫= λ record, __add__ t (as_dataset record))
        with (Ok {| data := before ++ [(l, v)]; description := desc |}).
      + rewrite IH. by rewrite <- app_assoc.
      + assert (from_dataset {| data := [(l, v)]; description := desc |}
                = Ok {| as_dataset := {| data := [(l, v)]; description := desc |};
                        id := l |}) as -> by reflexivity.
        cbn [mbind result_bind as_dataset]. unfold __add__, assert.
        cbn [description data]. by rewrite bool_decide_eq_true_2. }
  apply (Hfold []).
Qed.

(** ** create_subsets *)

(** X25.  [create_subsets] raises AssertionError for a [sample_size] above
    the number of rows, before [index_split] is consulted; otherwise, when
    [index_split] returns lists of in-range positions, it returns one
    dataset per list, with the rows of the receiver at these positions (as
    many rows as positions) and the receiver's description. *)
Theorem create_subsets_rows (index_split : nat → Z → Z → result (list (list Z)))
    (D : TabularDataset) (n sample_size : Z) :
  (Z.of_nat (__len__ D) < sample_size →
   create_subsets index_split D n sample_size
   = Raise (AssertionError "Cannot create subsets larger than original dataset")) ∧
  (∀ splits,
     sample_size ≤ Z.of_nat (__len__ D) →
     index_split (__len__ D) sample_size n = Ok splits →
     Forall (Forall (λ i, - Z.of_nat (__len__ D) ≤ i < Z.of_nat (__len__ D))) splits →
     ∃ subsets,
       create_subsets index_split D n sample_size = Ok subsets ∧
       Forall2 (λ positions subset,
                  get_records D positions = Ok subset ∧
                  __len__ subset = length positions ∧
                  data subset ⊆ data D ∧
                  description subset = description D)
         splits subsets).
Proof.
  unfold create_subsets, assert. split.
  - intros Hsize. by rewrite bool_decide_eq_false_2 by lia.
  - intros splits Hsize Hsplit Hranges. rewrite bool_decide_eq_true_2 by done.
    unfold __len__ in Hsplit. cbn. rewrite Hsplit. cbn.
    assert (∃ subsets,
              Forall2 (λ positions subset,
                         get_records D positions = Ok subset ∧
                         __len__ subset = length positions ∧
                         data subset ⊆ data D ∧
                         description subset = description D) splits subsets)
      as (subsets & Hsubsets).
    { clear Hsplit. induction Hranges as [|positions splits Hpositions _ [subsets IH]].
      - by exists [].
      - destruct (iloc_in_range _ _ Hpositions) as (rows & Hrows & Hall).
        exists ({| data := rows; description := description D |} :: subsets).
        constructor; [|done]. unfold get_records. rewrite Hrows. cbn.
        split; [done|]. split; [symmetry; by eapply Forall2_length|]. split; [|done].
        intros row Hrow. apply list_elem_of_lookup in Hrow as [k Hk].
        destruct (Forall2_lookup_r _ _ _ _ _ Hall Hk) as (i & _ & Hlook).
        by eapply list_elem_of_lookup_2. }
    exists subsets. split; [|done]. apply comprehension_Forall2.
    eapply Forall2_impl; [exact Hsubsets|]. by intros ? ? [? _].
Qed.

Lemma create_subsets_rows_witness :
  create_subsets (λ _ _ _, Ok [[0; 2]; [2; 1]]) (example.dataset [5; 3; 4]) 2 4
  = Raise (AssertionError "Cannot create subsets larger than original dataset") ∧
  ∃ subsets,
    create_subsets (λ _ _ _, Ok [[0; 2]; [2; 1]]) (example.dataset [5; 3; 4]) 2 2
    = Ok subsets ∧
    Forall2 (λ positions subset,
               get_records (example.dataset [5; 3; 4]) positions = Ok subset ∧
               __len__ subset = length positions ∧
               data subset ⊆ data (example.dataset [5; 3; 4]) ∧
               description subset = description (example.dataset [5; 3; 4]))
      [[0; 2]; [2; 1]] subsets.
Proof.
  split.
  - apply (proj1 (create_subsets_rows (λ _ _ _, Ok [[0; 2]; [2; 1]])
                    (example.dataset [5; 3; 4]) 2 4)).
    cbn. lia.
  - apply (proj2 (create_subsets_rows (λ _ _ _, Ok [[0; 2]; [2; 1]])
                    (example.dataset [5; 3; 4]) 2 2)).
    + cbn. lia.
    + reflexivity.
    + repeat constructor; cbn; lia.
Defined.

(** ** Groundhog, continued *)

Lemma round_threshold (x : Q) :
  (0 <= x)%Q → (x <= 1)%Q → np.round x = if Qle_bool x (1 # 2) then 0 else 1.
Proof.
  destruct (Qle_bool x (1 # 2)) eqn:Hhalf.
  - apply Qle_bool_iff in Hhalf. revert Hhalf.
    destruct x as [n d]. unfold np.round, Qle, Qcompare, Qminus, Qplus, Qopp, inject_Z, Qfloor.
    cbn [Qnum Qden]. intros Hhalf Hlo Hhi.
    pose proof (Z.div_mod n (Z.pos d) ltac:(lia)) as Hdiv.
    pose proof (Z.mod_pos_bound n (Z.pos d) ltac:(lia)) as Hmod.
    set (f := n / Z.pos d) in *. set (r := n mod Z.pos d) in *.
    assert (f = 0) as -> by nia.
    destruct (Z.compare_spec ((n * 1 + - 0 * Z.pos d) * 2) (1 * Z.pos (d * 1))); cbn; lia.
  - assert (¬ (x <= 1 # 2)%Q) as Hhalf' by (rewrite <- Qle_bool_iff; congruence).
    clear Hhalf. revert Hhalf'.
    destruct x as [n d]. unfold np.round, Qle, Qcompare, Qminus, Qplus, Qopp, inject_Z, Qfloor.
    cbn [Qnum Qden]. intros Hhalf Hlo Hhi.
    pose proof (Z.div_mod n (Z.pos d) ltac:(lia)) as Hdiv.
    pose proof (Z.mod_pos_bound n (Z.pos d) ltac:(lia)) as Hmod.
    set (f := n / Z.pos d) in *. set (r := n mod Z.pos d) in *.
    assert (f = 0 ∨ f = 1) as Hf by nia.
    destruct (Z.compare_spec ((n * 1 + - f * Z.pos d) * 2) (1 * Z.pos (d * 1)));
      destruct Hf as [-> | ->]; cbn [Z.even]; lia.
Qed.

Section groundhog_more.
Context {C F T : Type} `{!SetClassifier C, !FeatureSet F, !ThreatModel T}.
Implicit Types self : Groundhog.instance C F.


(** X27.  Whatever its outcome, a [train] call leaves every attribute
    other than [classifier] and [trained] as it was, and never takes
    [trained] back from True: an object whose retraining failed still
    passes the assertion of [attack]. *)
Theorem train_keeps self (threat_model : option T) (num_samples : Z)
    (synthetic_datasets : option (list TabularDataset)) (labels : option (list Z)) :
  (∀ name, name ≠ "classifier" → name ≠ "trained" →
     (Groundhog.train self threat_model num_samples synthetic_datasets labels).1 !! name
     = self !! name) ∧
  (self !! "trained" = Some (Groundhog.VBool true) →
   (Groundhog.train self threat_model num_samples synthetic_datasets labels).1 !! "trained"
   = Some (Groundhog.VBool true)).
Proof.
  destruct (Groundhog.train self threat_model num_samples synthetic_datasets labels)
    as [self' outcome] eqn:Htrain.
  apply train_outcome in Htrain as [(? & _ & ->)|[(? & c & _ & ->)|(c & _ & ->)]]; cbn.
  - done.
  - split; [intros name ? ?|intros ?]; by rewrite lookup_insert_ne.
  - split; [intros name ? ?|intros ?].
    + by rewrite !lookup_insert_ne.
    + by rewrite lookup_insert_eq.
Qed.

(** X28.  On an object on which no [train] call has succeeded,
    [attack_score] raises the AssertionError of its first line, whatever it
    is given. *)
Theorem attack_score_before_train self (synT : list TabularDataset) (secret : list Z) :
  never_trained (T:=T) self →
  Groundhog.attack_score self synT secret
  = Raise (AssertionError "Attack must first be trained.").
Proof.
  intros Hflag%never_trained_flag.
  unfold Groundhog.attack_score, Groundhog.getattr. by rewrite Hflag.
Qed.

(** X29.  For scores between 0 and 1, the guess of [attack] is 1 exactly
    for a score above 1/2: a score of exactly 1/2 is rounded to the even
    neighbour and gives 0. *)
Theorem attack_threshold self (c : C) (datasets : list TabularDataset) (scores : list Q) :
  self !! "trained" = Some (Groundhog.VBool true) →
  self !! "classifier" = Some (Groundhog.VClassifier c) →
  predict c datasets = Ok scores →
  Forall (λ s, (0 <= s)%Q ∧ (s <= 1)%Q) scores →
  Groundhog.attack self datasets
  = Ok ((λ s, if Qle_bool s (1 # 2) then 0 else 1) <$> scores).
Proof.
  intros Hflag Hclf Hpredict Hrange. unfold Groundhog.attack, Groundhog.getattr.
  rewrite Hflag. cbn. rewrite Hclf. cbn. rewrite Hpredict. cbn. f_equal.
  clear Hpredict. induction Hrange as [|s scores [Hlo Hhi] _ IH]; [done|]. cbn.
  by rewrite IH, round_threshold.
Qed.

End groundhog_more.


Lemma train_keeps_witness :
  (Groundhog.train example.trained (None : option unit) 100 (Some []) (Some [])).1 !! "trained"
  = Some (Groundhog.VBool true).
Proof.
  apply (proj2 (train_keeps example.trained (None : option unit) 100 (Some []) (Some []))).
  reflexivity.
Defined.

Lemma attack_score_before_train_witness :
  Groundhog.attack_score example.fresh [example.dataset [1]] [1]
  = Raise (AssertionError "Attack must first be trained.").
Proof.
  apply (attack_score_before_train (T:=unit)). apply never_trained_init.
Defined.

Lemma attack_threshold_witness :
  Groundhog.attack example.trained [example.dataset [1]; example.dataset []]
  = Ok ((λ s, if Qle_bool s (1 # 2) then 0 else 1) <$> [(9 # 10)%Q; (1 # 10)%Q]).
Proof.
  apply (attack_threshold example.trained {| example.fits := 1 |}).
  - reflexivity.
  - reflexivity.
  - reflexivity.
  - repeat constructor; discriminate.
Defined.

(** ** Reading *)

(** X30.  Once the dtypes are found and [read_csv] has returned a frame,
    [read_from_string] (through [_parse_csv]) returns that frame with the
    schema as its description when no column is a date or a datetime, and
    ends in a NameError for [i] when one is: a schema with a date column
    cannot be read. *)
Theorem read_from_string_dates {dtype : Type} (get_dtype : string → string → result dtype)
    (read_csv : string → list dtype → result pd.DataFrame) (text : string)
    (schema : DataDescription) (dtypes : list dtype) (frame : pd.DataFrame) :
  Groundhog.comprehension (λ col, get_dtype (type col) (representation col)) schema
  = Ok dtypes →
  read_csv text dtypes = Ok frame →
  (Forall (λ col, representation col ≠ "date" ∧ representation col ≠ "datetime") schema →
   read_from_string get_dtype read_csv text schema
   = returned {| data := frame; description := schema |}) ∧
  (Exists (λ col, representation col = "date" ∨ representation col = "datetime") schema →
   read_from_string get_dtype read_csv text schema = NameError "i").
Proof.
  intros Hdtypes Hread. unfold read_from_string, _parse_csv. rewrite Hdtypes, Hread.
  split.
  - intros Hplain. rewrite filter_keeps_none; [done|].
    eapply Forall_impl; [exact Hplain|]. cbn. tauto.
  - intros Hdate. apply Exists_exists in Hdate as (col & Hin & Hcol).
    destruct (filter _ schema) as [|? ?] eqn:Hfilter; [|done].
    exfalso. eapply filter_nil_not_elem_of; [exact Hfilter|exact Hcol|exact Hin].
Qed.

Lemma read_from_string_dates_witness :
  read_from_string (λ _ _, Ok tt) (λ _ _, Ok (example.frame [5; 3])) "5" example.ages
  = returned {| data := example.frame [5; 3]; description := example.ages |} ∧
  read_from_string (λ _ _, Ok tt) (λ _ _, Ok (example.frame [5; 3])) "5" [{| type := "finite"; representation := "date" |}]
  = NameError "i".
Proof.
  split.
  - apply (proj1 (read_from_string_dates (λ _ _, Ok tt) (λ _ _, Ok (example.frame [5; 3]))
                    _ example.ages [tt] (example.frame [5; 3]) eq_refl eq_refl)).
    repeat constructor; discriminate.
  - apply (proj2 (read_from_string_dates (λ _ _, Ok tt) (λ _ _, Ok (example.frame [5; 3]))
                    _ [{| type := "finite"; representation := "date" |}] [tt]
                    (example.frame [5; 3]) eq_refl eq_refl)).
    apply Exists_cons_hd. by left.
Defined.
